(** * digital_economy_app.py: the data layer of the dashboard

    A shallow embedding of [load_data] and of the query and metrics part of
    [main] (src/digital_economy_app.py), with the properties the
    specification states about them.

    Conventions of the embedding.
    - A DataFrame is the list of its rows in index order (the "natural
      order" of the Dataset); a column is the projection of a field.
    - Columns, by their header in the CSV file:
        股票代码 -> [code]     企业名称 -> [name]     年份 -> [year]
        数字化转型指数(0-100分) -> [index]             总词频数 -> [freq]
    - A missing cell is pandas' NaN, written [None] (for a code, a name,
      an index or a frequency); NaN compares equal to nothing and is
      skipped by [mean] and [rank].  A name that is [Some s] is a text
      cell; a name cell that is not a text (in a column of numbers, which
      [pd.read_csv] does not read as text) equals no query either and is
      written [None] too.  Whether the name column as a whole was read as
      text is kept with the Dataset, since [.str] raises on a column that
      was not.
    - The file, when it is a table, has the columns the program names.
    - The values of the float64 columns (index, frequency) are written as
      rationals, each standing for the float64 nearest to it;
      comparisons of stored values are exact, and the averages are
      idealised as exact means.  What the page shows after float
      arithmetic of its own, the delta and the percentile, is computed on
      binary64 floats, because the value shown depends on the rounding.
    - A year cell reads as a finite number, as an infinity or as NaN; the
      cast to int64 is that of a float64, which outside the range gives
      the smallest int64 (as on x86-64).
    - [ui] lists the elements [main] puts on the page, in the order of
      the calls; the three tabs with their charts and table are one
      element.  The widgets of the sidebar are also the inputs of the
      run: the search mode, the query and the two ends of the year
      slider, in a run where no quick-access button is pressed.
    - An exception that escapes [main] is a [Raise] result. *)

From Stdlib Require Import List ZArith QArith Qround Bool Lia.
From Stdlib Require Import String Ascii DecimalString.
From Stdlib Require Import Permutation Sorted.
From Stdlib Require Import Floats Uint63.
Import ListNotations.

Open Scope Z_scope.

(** ** Results of code that may raise *)

Inductive exn : Set :=
| ValueError      (* int() of NaN or of a non-numeric string; min of no rows *)
| OverflowError   (* int() of an infinite float *)
| ReError         (* the query is not a valid regular expression *)
| AttributeError. (* .str on a column that was not read as text *)

Inductive res (A : Type) : Type :=
| Ok (a : A)
| Raise (e : exn).
Arguments Ok {A} a.
Arguments Raise {A} e.

Definition bind {A B : Type} (m : res A) (k : A -> res B) : res B :=
  match m with
  | Ok a => k a
  | Raise e => Raise e
  end.

Notation "x <- m ;; k" := (bind m (fun x => k))
  (at level 61, m at next level, right associativity).

(** ** Rows *)

(** A float64 as [pd.to_numeric] gives it: finite, infinite, or NaN. *)
Inductive number : Type :=
| Fin (q : Q)
| Inf
| NaN.

(** A cell of the 年份 column as [pd.read_csv] delivers it: a number (finite
    or infinite) when the column was inferred numeric, int64 or float64,
    the text itself otherwise, or NaN. *)
Inductive cell : Type :=
| CNum (q : Q)
| CInf
| CStr (s : string)
| CNaN.

(** A row of the file as read. *)
Record RawRow : Type := mkRaw {
  raw_code  : option string;
  raw_name  : option string;
  raw_year  : cell;
  raw_index : option Q;
  raw_freq  : option Q
}.

(** A row of the cleaned DataFrame [df]. *)
Record Row : Type := mkRow {
  code  : option string;
  name  : option string;
  year  : Z;
  index : option Q;
  freq  : option Q
}.

(** A row of [market_avg]: 年份, 市场平均指数, 市场平均词频. *)
Record AvgRow : Type := mkAvg {
  avg_year  : Z;
  avg_index : option Q;
  avg_freq  : option Q
}.

(** ** Column operations of pandas used by the program *)

Module Pandas.

Section ToNumeric.

(** The numeric reading of a text cell, [NaN] when the text is not a
    number: pandas' parser, left a parameter. *)
Variable parse_number : string -> number.

(** [pd.to_numeric(col, errors='coerce')], cell by cell. *)
Definition to_numeric (c : cell) : number :=
  match c with
  | CNum q => Fin q
  | CInf => Inf
  | CStr s => parse_number s
  | CNaN => NaN
  end.

End ToNumeric.

(** The integer part of a number, towards zero. *)
Definition truncate (q : Q) : Z := Z.quot (Qnum q) (Zpos (Qden q)).

Definition int64_min : Z := - 2 ^ 63.

Definition int64_max : Z := 2 ^ 63 - 1.

Definition in_int64 (z : Z) : bool := (int64_min <=? z) && (z <=? int64_max).

(** [.astype(int)] on a float64 column: a value that is not finite makes
    the cast raise (IntCastingNaNError, a ValueError); a finite value
    loses its fraction, and outside the range of int64 the conversion
    gives the smallest int64. *)
Definition astype_int (x : number) : res Z :=
  match x with
  | Fin q => Ok (if in_int64 (truncate q) then truncate q else int64_min)
  | Inf => Raise ValueError
  | NaN => Raise ValueError
  end.

(** [df[mask]]: the rows whose entry of the boolean column is True. *)
Definition select {A : Type} (df : list A) (mask : list bool) : list A :=
  map fst (filter snd (combine df mask)).

(** The values of a numeric column that are not NaN. *)
Fixpoint present (l : list (option Q)) : list Q :=
  match l with
  | [] => []
  | Some q :: l' => q :: present l'
  | None :: l' => present l'
  end.

Definition Qsum (l : list Q) : Q := fold_right Qplus 0%Q l.

(** [.mean()] of a numeric column: NaN cells are skipped, and the mean
    of no value is NaN. *)
Definition mean (l : list (option Q)) : option Q :=
  match present l with
  | [] => None
  | x :: xs =>
      Some (Qsum (x :: xs) / inject_Z (Z.of_nat (List.length (x :: xs))))%Q
  end.

(** [groupby('年份')]: the group of a row is looked up by its year in
    the list of groups, kept in ascending order of the year; a row joins
    its group behind the rows already there. *)
Fixpoint add_to_group (r : Row) (gs : list (Z * list Row))
  : list (Z * list Row) :=
  match gs with
  | [] => [(year r, [r])]
  | (y, g) :: gs' =>
      if year r =? y then (y, g ++ [r]) :: gs'
      else if year r <? y then (year r, [r]) :: (y, g) :: gs'
      else (y, g) :: add_to_group r gs'
  end.

Definition groupby_year (df : list Row) : list (Z * list Row) :=
  fold_left (fun gs r => add_to_group r gs) df [].

(** [.sort_values('年份')]: ascending, by insertion; rows of one year keep
    their relative order.  (pandas leaves the order of equal years to the
    sorting routine; nothing below depends on it.) *)
Fixpoint insert_by_year (r : Row) (l : list Row) : list Row :=
  match l with
  | [] => [r]
  | x :: l' =>
      if year r <=? year x then r :: x :: l' else x :: insert_by_year r l'
  end.

Definition sort_values (l : list Row) : list Row :=
  fold_right insert_by_year [] l.

(** [.rank(ascending=False, method='min')]: the values that are not NaN
    are put in descending order, and the rank of a value is the place,
    counted from 1, of the first value of that order that is not above it,
    which is the place of the first of its ties.  NaN has rank NaN. *)
Definition aboveQ (v x : Q) : bool := negb (Qle_bool x v).

Fixpoint insert_desc (x : Q) (l : list Q) : list Q :=
  match l with
  | [] => [x]
  | y :: l' => if Qle_bool y x then x :: y :: l' else y :: insert_desc x l'
  end.

Definition sort_desc (l : list Q) : list Q := fold_right insert_desc [] l.

Fixpoint place_before (v : Q) (sorted : list Q) : nat :=
  match sorted with
  | [] => 0
  | x :: l' => if aboveQ v x then S (place_before v l') else 0
  end.

Definition rank_of (col : list (option Q)) (c : option Q) : option Z :=
  match c with
  | Some v => Some (1 + Z.of_nat (place_before v (sort_desc (present col))))
  | None => None
  end.

Definition rank_desc_min (col : list (option Q)) : list (option Z) :=
  map (rank_of col) col.

(** A cell that holds a value strictly above [v]. *)
Definition above (v : Q) (c : option Q) : bool :=
  match c with
  | Some x => aboveQ v x
  | None => false
  end.

(** Equality of two numeric cells: NaN with NaN, numbers by value. *)
Definition cell_eq (a b : option Q) : Prop :=
  match a, b with
  | Some x, Some y => (x == y)%Q
  | None, None => True
  | _, _ => False
  end.

(** The group of a year in the result of [groupby], empty when the year
    is not a key. *)
Definition group_of (y : Z) (gs : list (Z * list Row)) : list Row :=
  match find (fun p => fst p =? y) gs with
  | Some p => snd p
  | None => []
  end.

(** [.iloc[-1]] and, behind the test [len(...) > 1], [.iloc[-2]]. *)
Definition iloc_last {A : Type} (l : list A) : option A :=
  nth_error l (List.length l - 1).

Definition iloc_before_last {A : Type} (l : list A) : option A :=
  match List.length l with
  | S (S n) => nth_error l n
  | _ => None
  end.

End Pandas.

(** ** Python's numbers *)

Module Py.

(** A small integer as a binary64 float (exact below 2^53). *)
Definition float_of_Z (z : Z) : float := PrimFloat.of_uint63 (Uint63.of_Z z).

(** [int(x)] of a float: truncation; NaN and the infinities raise. *)
Definition int_of_float (x : float) : res Z :=
  match Prim2SF x with
  | S754_zero _ => Ok 0
  | S754_finite s m e =>
      let mag := if 0 <=? e then Z.pos m * 2 ^ e else Z.pos m / 2 ^ (- e) in
      Ok (if s then - mag else mag)
  | S754_infinity _ => Raise OverflowError
  | S754_nan => Raise ValueError
  end.

(** The float64 that a stored value stands for: the nearest float64 of
    the rational (exact division of two integers below 2^53). *)
Definition float_of_Q (q : Q) : float :=
  let n := float_of_Z (Z.abs (Qnum q)) in
  PrimFloat.div (if Qnum q <? 0 then PrimFloat.opp n else n)
                (float_of_Z (Z.pos (Qden q))).

(** The exact value of a finite float64; NaN and the infinities have none. *)
Definition Q_of_float (x : float) : option Q :=
  match Prim2SF x with
  | S754_zero _ => Some 0%Q
  | S754_finite s m e =>
      let mag := if 0 <=? e then inject_Z (Z.pos m * 2 ^ e)
                 else Z.pos m # Pos.pow 2 (Z.to_pos (- e)) in
      Some (if s then Qopp mag else mag)
  | S754_infinity _ => None
  | S754_nan => None
  end.

(** [rint]: the nearest integer, a tie going to the even one, as the sum
    with 2^52 rounds it; from 2^52 on a float64 is an integer. *)
Definition two52 : float := float_of_Z (2 ^ 52).

Definition rint (y : float) : float :=
  if PrimFloat.ltb (PrimFloat.abs y) two52 then
    if PrimFloat.ltb y PrimFloat.zero
    then PrimFloat.opp (PrimFloat.sub (PrimFloat.add (PrimFloat.opp y) two52) two52)
    else PrimFloat.sub (PrimFloat.add y two52) two52
  else y.

(** [round(x, 2)] of a [np.float64]: [rint(x * 100) / 100], each step in
    binary64. *)
Definition np_round2 (x : float) : float :=
  PrimFloat.div (rint (PrimFloat.mul x (float_of_Z 100))) (float_of_Z 100).

End Py.

(** ** Python's [re], as far as [str.contains] needs it *)

Module Re.

Definition backslash : ascii := ascii_of_nat 92.

Definition special_chars : list ascii :=
  backslash ::
  ["."; "^"; "$"; "*"; "+"; "?"; "{"; "}"; "["; "]"; "|"; "("; ")"]%char.

Definition is_special (c : ascii) : bool :=
  existsb (Ascii.eqb c) special_chars.

(** A pattern without special characters matches itself and nothing else. *)
Definition literal (pat : string) : bool :=
  forallb (fun c => negb (is_special c)) (list_ascii_of_string pat).

(** A pattern that opens with a repetition operator has nothing to repeat:
    [re.compile] raises [re.error]. *)
Definition nothing_to_repeat (pat : string) : bool :=
  match pat with
  | String c _ => existsb (Ascii.eqb c) ["*"; "+"; "?"]%char
  | EmptyString => false
  end.

(** [pat in s]. *)
Fixpoint is_substring (pat s : string) : bool :=
  String.prefix pat s ||
  match s with
  | EmptyString => false
  | String _ s' => is_substring pat s'
  end.

Section Compile.

(** [re.compile] on the patterns that use special characters otherwise
    than above ([None]: it raises); the regular-expression language is
    Python's and is left a parameter. *)
Variable re_other : string -> option (string -> bool).

(** [re.compile(pat)], as the predicate [lambda s: r.search(s) is not None]. *)
Definition compile (pat : string) : option (string -> bool) :=
  if literal pat then Some (is_substring pat)
  else if nothing_to_repeat pat then None
  else re_other pat.

(** [col.str.contains(pat, na=False)]: [pat] is a regular expression
    (regex=True is the default), compiled once; a NaN cell gives False. *)
Definition str_contains (pat : string) (col : list (option string))
  : res (list bool) :=
  match compile pat with
  | None => Raise ReError
  | Some search =>
      Ok (map (fun c => match c with Some s => search s | None => false end) col)
  end.

End Compile.

End Re.

(** ** The program: [load_data] and [main] *)

Module App.
Import Pandas.

(** What [pd.read_csv] makes of the file at [CSV_PATH]: either a statement
    of the [try] block other than the cast of the year raises (the file is
    not delimited text in utf-8, the year or a column to average is not in
    the header, a column to average is not numeric), or the file is a table
    of rows. *)
Inductive file_content : Type :=
| Unparsable (e : string)
| Table (rows : list RawRow).

(** The two values [load_data] returns: [(df, market_avg)], or
    [(None, None)], written [None].  With [df] goes what is not in its
    rows: whether [pd.read_csv] read the 企业名称 column as text. *)
Definition load_result : Type := option (bool * list Row * list AvgRow).

Inductive search_mode : Set :=
| ByName    (* "企业名称" *)
| ByCode.   (* "股票代码" *)

(** [my_rank]: a rank, NaN, or the string "N/A". *)
Inductive rank_value : Set :=
| RankNum (r : Z)
| RankNaN
| RankNA.

(** The elements of the page. *)
Inductive ui : Type :=
| error_load_failed (e : string)        (* st.error("数据加载失败: {e}") *)
| error_file_not_found                  (* st.error("无法找到数据文件: {CSV_PATH}") *)
| sidebar_title                         (* st.title("分析控制台") *)
| rule                                  (* st.markdown("---") *)
| radio_search_mode                     (* st.radio("检索方式", ...) *)
| text_input (m : search_mode)          (* st.text_input("输入{search_mode}", ...) *)
| slider (min_year max_year : Z)        (* st.slider("分析时间段", ...) *)
| heading_quick_access                  (* st.markdown("### 快速访问") *)
| button (name code : string)           (* st.button("{name} ({code})") *)
| page_title                            (* st.title("上市公司数字化转型全景看板") *)
| data_source (min_year max_year : Z)   (* st.markdown("**数据来源**: ...") *)
| info_enter_query                      (* st.info("请在左侧输入股票代码或简称开始分析") *)
| subheader_overview                    (* st.subheader("市场整体趋势 (1999-2023)") *)
| overview_chart (market_avg_df : list AvgRow)
| info_no_match                         (* st.info("未找到匹配企业，请尝试其他关键词。") *)
| warning_no_data (lo hi : Z)           (* st.warning("该企业在 lo-hi 年间无数据。") *)
| subheader (company_name : option string) (stock_code : option string)
| card_index (latest_idx idx_delta : option Q)   (* "当前转型指数" *)
| card_rank (rank top : Z)                       (* "市场排名" *)
| card_freq (n : Z)                              (* "数字化关键词频" *)
| card_year (latest_yr : Z)                      (* "数据年份" *)
| tabs (chart_df : list (Row * option AvgRow)).

(** The values [main] derives for the resolved company. *)
Record Metrics : Type := mkMetrics {
  company_name : option string;
  stock_code   : option string;
  latest_idx   : option Q;
  latest_yr    : Z;
  latest_freq  : option Q;
  idx_delta    : option Q;
  my_rank      : rank_value;
  total_comps  : Z
}.

(** The sidebar: search mode, query, and the two ends of the year slider. *)
Record Inputs : Type := mkInputs {
  mode           : search_mode;
  query          : string;
  selected_years : Z * Z
}.

(** The process: the file at [CSV_PATH], the entry of [st.cache_data] for
    [load_data] (the returned value and the messages to replay), the page,
    and how many times the body of [load_data] has run. *)
Record World : Type := mkWorld {
  file     : option file_content;
  cache    : option (load_result * list ui);
  screen   : list ui;
  attempts : nat
}.

(** Rendering: the elements shown so far, and a value or an exception. *)
Definition Render (A : Type) : Type := (list ui * res A)%type.

Definition ret {A : Type} (a : A) : Render A := ([], Ok a).

Definition show (u : ui) : Render unit := ([u], Ok tt).

Definition show_all (l : list ui) : Render unit := (l, Ok tt).

Definition lift {A : Type} (r : res A) : Render A := ([], r).

Definition rbind {A B : Type} (m : Render A) (k : A -> Render B) : Render B :=
  match m with
  | (out, Ok a) => let (out', r) := k a in (out ++ out', r)
  | (out, Raise e) => (out, Raise e)
  end.

Notation "x <~ m ;; k" := (rbind m (fun x => k))
  (at level 61, m at next level, right associativity).
Notation "m ;;; k" := (rbind m (fun _ => k))
  (at level 61, right associativity).

Section Program.

Variable parse_number : string -> number.
Variable re_other : string -> option (string -> bool).

(** *** load_data *)

(** Line 84: the rows that [dropna] keeps. *)
Definition parsed_year (raw : RawRow) : bool :=
  match to_numeric parse_number (raw_year raw) with
  | NaN => false
  | _ => true
  end.

(** Lines 83-85: the year is made numeric, rows whose year is NaN are
    dropped, the year becomes an integer; the cast raises when a year that
    is left is infinite. *)
Fixpoint clean (rows : list RawRow) : res (list Row) :=
  match rows with
  | [] => Ok []
  | r :: rows' =>
      if parsed_year r then
        y <- astype_int (to_numeric parse_number (raw_year r)) ;;
        df <- clean rows' ;;
        Ok (mkRow (raw_code r) (raw_name r) y (raw_index r) (raw_freq r) :: df)
      else clean rows'
  end.

(** Whether [pd.read_csv] reads the 企业名称 column as text: it does when
    some cell of the file holds a text. *)
Definition names_are_text (rows : list RawRow) : bool :=
  existsb (fun r => match raw_name r with Some _ => true | None => false end) rows.

(** The text of the exception of line 85. *)
Definition cast_error : string :=
  "Cannot convert non-finite values (NA or inf) to integer".

(** Lines 88-92: the mean of the index and of the frequency per year. *)
Definition market_avg (df : list Row) : list AvgRow :=
  map (fun g => mkAvg (fst g) (mean (map index (snd g))) (mean (map freq (snd g))))
      (groupby_year df).

(** The body of [load_data]: the value returned and the messages shown. *)
Definition load_data_body (f : option file_content) : load_result * list ui :=
  match f with
  | None => (None, [])
  | Some (Unparsable e) => (None, [error_load_failed e])
  | Some (Table rows) =>
      match clean rows with
      | Ok df => (Some (names_are_text rows, df, market_avg df), [])
      | Raise _ => (None, [error_load_failed cast_error])
      end
  end.

(** [@st.cache_data]: a stored entry is returned, and its messages shown
    again, without running the body; otherwise the body runs and what it
    returned is stored, whatever it is. *)
Definition load_data (w : World) : load_result * World :=
  match cache w with
  | Some (r, msgs) =>
      (r, mkWorld (file w) (cache w) (screen w ++ msgs) (attempts w))
  | None =>
      let (r, msgs) := load_data_body (file w) in
      (r, mkWorld (file w) (Some (r, msgs)) (screen w ++ msgs) (S (attempts w)))
  end.

(** *** main: the resolver *)

Definition name_is (q : string) (r : Row) : bool :=
  match name r with
  | Some s => String.eqb s q
  | None => false
  end.

Definition code_is (q : string) (r : Row) : bool :=
  match code r with
  | Some c => String.eqb c q
  | None => false
  end.

(** [df['股票代码'] == first_code], where [first_code] was read in a row and
    may be NaN, which equals nothing. *)
Definition same_code (first_code : option string) (r : Row) : bool :=
  match first_code with
  | Some q => code_is q r
  | None => false
  end.

(** Lines 143-148.  [.str] raises on a name column that was not read as
    text, before the pattern is looked at. *)
Definition matches (text_names : bool) (df : list Row) (m : search_mode)
  (q : string) : res (list Row) :=
  match m with
  | ByCode => Ok (filter (code_is q) df)
  | ByName =>
      match filter (name_is q) df with
      | [] =>
          if text_names then
            mask <- Re.str_contains re_other q (map name df) ;;
            Ok (select df mask)
          else Raise AttributeError
      | exact => Ok exact
      end
  end.

(** Line 153. *)
Definition target_company (df : list Row) (first_code : option string)
  : list Row :=
  sort_values (filter (same_code first_code) df).

(** Lines 156-157. *)
Definition in_years (sel : Z * Z) (r : Row) : bool :=
  (fst sel <=? year r) && (year r <=? snd sel).

Definition filtered_company (df : list Row) (first_code : option string)
  (sel : Z * Z)
  : list Row :=
  filter (in_years sel) (target_company df first_code).

(** *** main: the metrics *)

(** Line 175: [round(latest_idx - prev_idx, 2)], on [np.float64]; a result
    that is NaN is written [None]. *)
Definition rounded_difference (a b : option Q) : option Q :=
  match a, b with
  | Some x, Some y =>
      Py.Q_of_float
        (Py.np_round2 (PrimFloat.sub (Py.float_of_Q x) (Py.float_of_Q y)))
  | _, _ => None
  end.

(** Line 178. *)
Definition current_market (df : list Row) (latest_yr : Z) : list Row :=
  filter (fun r => year r =? latest_yr) df.

(** Lines 179-180.  The mask [df['股票代码'] == stock_code] is aligned on the
    row labels of [rank], which are those of [current_market]. *)
Definition market_rank (df : list Row) (latest_yr : Z)
  (stock_code : option string) : rank_value :=
  let cm := current_market df latest_yr in
  let rank := rank_desc_min (map index cm) in
  match select rank (map (same_code stock_code) cm) with
  | Some r :: _ => RankNum r
  | None :: _ => RankNaN
  | [] => RankNA
  end.

(** Lines 163-181, for a non-empty [filtered_company]. *)
Definition metrics (df filtered : list Row) (first_code : option string)
  : option Metrics :=
  match iloc_last filtered with
  | None => None
  | Some latest_rec =>
      let prev_rec := iloc_before_last filtered in
      Some {|
        company_name := name latest_rec;
        stock_code := first_code;
        latest_idx := index latest_rec;
        latest_yr := year latest_rec;
        latest_freq := freq latest_rec;
        idx_delta :=
          match prev_rec with
          | Some p => rounded_difference (index latest_rec) (index p)
          | None => Some 0%Q
          end;
        my_rank := market_rank df (year latest_rec) first_code;
        total_comps := Z.of_nat (List.length (current_market df (year latest_rec)))
      |}
  end.

(** Line 188: [int(my_rank)] and [int(my_rank/total_comps*100)]. *)
Definition int_of_rank (v : rank_value) : res Z :=
  match v with
  | RankNum r => Ok r
  | RankNaN => Raise ValueError
  | RankNA => Raise ValueError
  end.

Definition top_percent (r total : Z) : res Z :=
  Py.int_of_float
    (PrimFloat.mul (PrimFloat.div (Py.float_of_Z r) (Py.float_of_Z total))
                   (Py.float_of_Z 100)).

(** Line 190: [int(latest_rec['总词频数'])]. *)
Definition int_of_cell (c : option Q) : res Z :=
  match c with
  | Some q => Ok (truncate q)
  | None => Raise ValueError
  end.

(** Line 197: the left join with the market averages on the year. *)
Definition merge_left (filtered : list Row) (avg : list AvgRow)
  : list (Row * option AvgRow) :=
  map (fun r => (r, find (fun a => avg_year a =? year r) avg)) filtered.

(** Lines 124-125: [int(df['年份'].min())]; the minimum of no row is NaN. *)
Definition year_bound (pick : Z -> Z -> Z) (df : list Row) : res Z :=
  match map year df with
  | [] => Raise ValueError
  | y :: ys => Ok (fold_left pick ys y)
  end.

(** *** main *)

(** Line 130. *)
Definition top_companies : list (string * string) :=
  [ ("平安银行", "000001"); ("万科A", "000002");
    ("美的集团", "000333"); ("比亚迪", "002594") ]%string.

(** Lines 110-134: the sidebar, none of its buttons pressed; its value is
    the pair [(min_year, max_year)]. *)
Definition sidebar (m : search_mode) (df : list Row) : Render (Z * Z) :=
  show sidebar_title ;;;
  show rule ;;;
  show radio_search_mode ;;;
  show (text_input m) ;;;
  min_year <~ lift (year_bound Z.min df) ;;
  max_year <~ lift (year_bound Z.max df) ;;
  show (slider min_year max_year) ;;;
  show rule ;;;
  show heading_quick_access ;;;
  show_all (map (fun c => button (fst c) (snd c)) top_companies) ;;;
  ret (min_year, max_year).

(** Lines 159-273: the page of the series [filtered_company] of the code
    [first_code]. *)
Definition dashboard (df : list Row) (market_avg_df : list AvgRow)
  (filtered : list Row) (first_code : option string) (sel : Z * Z)
  : Render unit :=
  match metrics df filtered first_code with
  | None => show (warning_no_data (fst sel) (snd sel))
  | Some m =>
      show (subheader (company_name m) (stock_code m)) ;;;
      show (card_index (latest_idx m) (idx_delta m)) ;;;
      r <~ lift (int_of_rank (my_rank m)) ;;
      t <~ lift (top_percent r (total_comps m)) ;;
      show (card_rank r t) ;;;
      n <~ lift (int_of_cell (latest_freq m)) ;;
      show (card_freq n) ;;;
      show (card_year (latest_yr m)) ;;;
      show rule ;;;
      show (tabs (merge_left filtered market_avg_df))
  end.

(** Lines 141-296: the main content below the title. *)
Definition content (text_names : bool) (df : list Row)
  (market_avg_df : list AvgRow) (inp : Inputs) : Render unit :=
  if String.eqb (query inp) EmptyString then
    show info_enter_query ;;;
    show subheader_overview ;;;
    show (overview_chart market_avg_df)
  else
    found <~ lift (matches text_names df (mode inp) (query inp)) ;;
    match found with
    | [] => show info_no_match
    | first :: _ =>
        let first_code := code first in
        dashboard df market_avg_df
          (filtered_company df first_code (selected_years inp))
          first_code (selected_years inp)
    end.

(** Lines 109-296: [main] once the Dataset is loaded. *)
Definition render (text_names : bool) (df : list Row)
  (market_avg_df : list AvgRow) (inp : Inputs) : Render unit :=
  bounds <~ sidebar (mode inp) df ;;
  show page_title ;;;
  show (data_source (fst bounds) (snd bounds)) ;;;
  content text_names df market_avg_df inp.

Definition main (inp : Inputs) (w : World) : World * res unit :=
  let (loaded, w1) := load_data w in
  match loaded with
  | None =>
      (mkWorld (file w1) (cache w1) (screen w1 ++ [error_file_not_found]) (attempts w1),
       Ok tt)
  | Some (text_names, df, market_avg_df) =>
      let (out, r) := render text_names df market_avg_df inp in
      (mkWorld (file w1) (cache w1) (screen w1 ++ out) (attempts w1), r)
  end.

End Program.

End App.

Import Pandas.

(** ** The program: what [main] assembles for the tabs *)

Module View.

(** [pd.merge(left, right, on='年份', how='left')]: the rows of [left] in
    their order, each beside every row of [right] of the same year, in the
    order of [right], or beside nothing when [right] has none. *)
Definition pd_merge_left (left : list Row) (right : list AvgRow)
  : list (Row * option AvgRow) :=
  flat_map
    (fun r =>
       match filter (fun a => avg_year a =? year r) right with
       | [] => [(r, None)]
       | found => map (fun a => (r, Some a)) found
       end)
    left.

(** Line 266: [.sort_values('年份', ascending=False)], by insertion. *)
Fixpoint insert_by_year_desc (r : Row) (l : list Row) : list Row :=
  match l with
  | [] => [r]
  | x :: l' =>
      if year x <=? year r then r :: x :: l' else x :: insert_by_year_desc r l'
  end.

Definition detail_table (filtered : list Row) : list Row :=
  fold_right insert_by_year_desc [] filtered.

(** The year and the five keyword frequencies of a row, by technology:
    人工智能词频数, 大数据词频数, 云计算词频数, 区块链词频数, 数字技术运用词频数. *)
Record TechRow : Type := mkTech {
  tech_year   : Z;
  ai          : option Q;
  big_data    : option Q;
  cloud       : option Q;
  blockchain  : option Q;
  digital_use : option Q
}.

(** Line 225: [tech_cols], each header with its column. *)
Definition tech_cols : list (string * (TechRow -> option Q)) :=
  [ ("人工智能词频数"%string, ai);
    ("大数据词频数"%string, big_data);
    ("云计算词频数"%string, cloud);
    ("区块链词频数"%string, blockchain);
    ("数字技术运用词频数"%string, digital_use) ].

(** [frame.melt(id, var_name, value_name)]: one block per value column, in
    the order of the columns; a block has one entry per row, in the order
    of the rows: the row's id, the header of the column, the row's value. *)
Definition melt {R V : Type} (id : R -> Z) (cols : list (string * (R -> V)))
  (rows : list R) : list (Z * string * V) :=
  flat_map (fun c => map (fun r => (id r, fst c, snd c r)) rows) cols.

(** Line 241: [heatmap_data], before the labels are shortened. *)
Definition heatmap_data (rows : list TechRow) : list (Z * string * option Q) :=
  melt tech_year tech_cols rows.

End View.

(** ** Vocabulary of the statements *)

Definition keys_sorted (gs : list (Z * list Row)) : Prop :=
  StronglySorted Z.lt (map fst gs).

Definition by_year (a b : Row) : Prop := year a <= year b.

Definition descending (a b : Q) : Prop := (b <= a)%Q.

Definition by_year_desc (a b : Row) : Prop := year b <= year a.

(** The row of the market whose rank is read: the first row of the Dataset
    that has the year and the code. *)
Definition key_is (yr : Z) (c : option string) (r : Row) : bool :=
  (year r =? yr) && App.same_code c r.

(** The rows of the Dataset in the year whose index is above [v]. *)
Definition ahead (df : list Row) (yr : Z) (v : Q) : list Row :=
  filter (fun r => (year r =? yr) && above v (index r)) df.

(** A row of the file and the row of the Dataset made of it. *)
Definition cleaned (parse_number : string -> number) (raw : RawRow) (r : Row)
  : Prop :=
  code r = raw_code raw /\ name r = raw_name raw /\
  index r = raw_index raw /\ freq r = raw_freq raw /\
  exists y,
    to_numeric parse_number (raw_year raw) = Fin y /\
    year r = if in_int64 (truncate y) then truncate y else int64_min.

(** The process with another file at [CSV_PATH]: the file is placed, fixed
    or removed between two interactions. *)
Definition with_file (w : App.World) (f : option App.file_content) : App.World :=
  App.mkWorld f (App.cache w) (App.screen w) (App.attempts w).

Definition fresh (f : option App.file_content) : App.World :=
  App.mkWorld f None [] 0.

(** What the page shows above its content on a Dataset with rows: the
    sidebar, the title and the line of the data source. *)
Definition page_head (m : App.search_mode) (df : list Row) : list App.ui :=
  fst (App.rbind (App.sidebar m df)
         (fun bounds =>
            App.rbind (App.show App.page_title)
              (fun _ => App.show (App.data_source (fst bounds) (snd bounds))))).

(** The rank cards on a page: the rank and the percentile shown. *)
Definition rank_cards (page : list App.ui) : list (Z * Z) :=
  flat_map (fun u => match u with
                     | App.card_rank r t => [(r, t)]
                     | _ => []
                     end) page.

(** The elements of the page that come after the rank card. *)
Definition after_rank_card (u : App.ui) : bool :=
  match u with
  | App.card_freq _ | App.card_year _ | App.tabs _ => true
  | _ => false
  end.

(** ** Sample data *)

(** A row as a line of the file, the year a number. *)
Definition raw_of_row (r : Row) : RawRow :=
  mkRaw (code r) (name r) (CNum (inject_Z (year r))) (index r) (freq r).

Definition file_of (df : list Row) : option App.file_content :=
  Some (App.Table (map raw_of_row df)).

(** The Dataset of the end-to-end scenario of the specification. *)
Definition scenario : list Row :=
  [ mkRow (Some "T1"%string) (Some "Alpha"%string) 2020 (Some 80%Q) (Some 10%Q);
    mkRow (Some "T1"%string) (Some "Alpha"%string) 2021 (Some 85%Q) (Some 14%Q);
    mkRow (Some "T2"%string) (Some "Beta"%string) 2021 (Some 90%Q) (Some 30%Q) ].

(** A file whose only row has no index. *)
Definition file_without_index : App.file_content :=
  App.Table [mkRaw (Some "000001"%string) (Some "PAB"%string) (CNum 2020) None (Some 12%Q)].

(** A Dataset whose only row has no total keyword frequency. *)
Definition without_frequency : list Row :=
  [mkRow (Some "000001"%string) (Some "PAB"%string) 2020 (Some 50%Q) None].

(** A well-formed file. *)
Definition good_file : App.file_content :=
  App.Table [mkRaw (Some "000001"%string) (Some "PAB"%string) (CNum 2020) (Some 55%Q) (Some 12%Q)].

(** Names with the delisting-risk mark of the exchange. *)
Definition marked_names : list Row :=
  [ mkRow (Some "000001"%string) (Some "PAB"%string) 2015 (Some 60%Q) (Some 25%Q);
    mkRow (Some "600401"%string) (Some "*ST HR"%string) 2015 (Some 20%Q) (Some 3%Q) ].

(** A market of [n] companies in 2023, codes T1 to Tn, the index of Tk
    being n + 1 - k: Tk ranks k-th. *)
Definition company (n k : nat) : Row :=
  mkRow (Some ("T" ++ NilEmpty.string_of_uint (Nat.to_uint k))%string)
        (Some ("Company " ++ NilEmpty.string_of_uint (Nat.to_uint k))%string)
        2023
        (Some (inject_Z (Z.of_nat (n + 1 - k))))
        (Some 1%Q).

Definition market (n : nat) : list Row := map (company n) (seq 1 n).

(** A Dataset for the resolver.  The query "Alpha" equals no name and is
    contained in three: the first of them is the second row of the Dataset,
    of code T1; code T2 has one too; and T1 has a row under a later name
    that does not contain the query. *)
Definition renamed : list Row :=
  [ mkRow (Some "T0"%string) (Some "Gamma"%string) 2020 (Some 40%Q) (Some 4%Q);
    mkRow (Some "T1"%string) (Some "Alpha Bank"%string) 2021 (Some 70%Q) (Some 9%Q);
    mkRow (Some "T2"%string) (Some "Alpha Tech"%string) 2020 (Some 55%Q) (Some 7%Q);
    mkRow (Some "T1"%string) (Some "Delta Bank"%string) 2022 (Some 75%Q) (Some 11%Q);
    mkRow (Some "T1"%string) (Some "Alpha Bank"%string) 2019 (Some 60%Q) (Some 5%Q) ].

(** A company whose index is 0, 2.675, 80 and 85.123 (each the nearest
    float64), and then missing. *)
Definition fractional : list Row :=
  [ mkRow (Some "T1"%string) (Some "Alpha"%string) 2018 (Some 0%Q) (Some 0%Q);
    mkRow (Some "T1"%string) (Some "Alpha"%string) 2019
          (Some (2675 # 1000)) (Some 8%Q);
    mkRow (Some "T1"%string) (Some "Alpha"%string) 2020 (Some 80%Q) (Some 10%Q);
    mkRow (Some "T1"%string) (Some "Alpha"%string) 2021
          (Some (85123 # 1000)) (Some 14%Q);
    mkRow (Some "T1"%string) (Some "Alpha"%string) 2022 None (Some 15%Q) ].

(** A Dataset read from a file whose name column is empty. *)
Definition unnamed : list Row :=
  [ mkRow (Some "000001"%string) None 2020 (Some 55%Q) (Some 12%Q) ].

(** A Dataset whose first row for the name "Alpha" has an empty code cell. *)
Definition without_code : list Row :=
  [ mkRow None (Some "Alpha"%string) 2020 (Some 80%Q) (Some 10%Q);
    mkRow (Some "T2"%string) (Some "Beta"%string) 2020 (Some 90%Q) (Some 30%Q) ].

(** * Properties *)

(** ** Lists and boolean masks *)

Lemma select_mask {A : Type} (p : A -> bool) (l : list A) :
  select l (map p l) = filter p l.
Proof.
  unfold select.
  induction l as [|a l IH]; simpl; [reflexivity|].
  destruct (p a); simpl; now rewrite IH.
Qed.

Lemma filter_head_split {A : Type} (p : A -> bool) (l : list A) x xs :
  filter p l = x :: xs ->
  exists pre post,
    l = pre ++ x :: post /\ Forall (fun a => p a = false) pre /\
    p x = true /\ filter p post = xs.
Proof.
  induction l as [|a l IH]; simpl; [discriminate|].
  destruct (p a) eqn:E.
  - intros H; inversion H; subst.
    exists [], l; repeat split; auto.
  - intros H. destruct (IH H) as (pre & post & -> & Hpre & Hx & Hpost).
    exists (a :: pre), post; repeat split; auto.
Qed.

Lemma filter_none {A : Type} (p : A -> bool) (l : list A) :
  Forall (fun a => p a = false) l -> filter p l = [].
Proof.
  induction 1 as [|a l Ha _ IH]; simpl; [reflexivity|]. now rewrite Ha.
Qed.

(** ** The loader: cleaning the year *)

Section LoaderFacts.

Variable parse_number : string -> number.

Let clean := App.clean parse_number.

Let parsed_year := App.parsed_year parse_number.

Let cleaned := cleaned parse_number.

Lemma clean_rows (rows : list RawRow) (df : list Row) :
  clean rows = Ok df -> Forall2 cleaned (filter parsed_year rows) df.
Proof.
  unfold clean, parsed_year. revert df.
  induction rows as [|a rows IH]; intros df; simpl.
  - intros [= <-]. constructor.
  - destruct (App.parsed_year parse_number a) eqn:P; [|apply IH].
    unfold App.parsed_year in P.
    destruct (to_numeric parse_number (raw_year a)) as [y| |] eqn:E; simpl;
      try discriminate.
    destruct (App.clean parse_number rows) as [df'|e]; simpl; [|discriminate].
    intros [= <-]. constructor; [|now apply IH].
    unfold cleaned. simpl. repeat split. exists y. now split.
Qed.



End LoaderFacts.

(** ** The market average: grouping by year *)

Lemma add_to_group_keys r gs k :
  In k (map fst (add_to_group r gs)) -> k = year r \/ In k (map fst gs).
Proof.
  induction gs as [|[y g] gs IH]; simpl.
  - intros [<- | []]; auto.
  - destruct (year r =? y) eqn:E1; [simpl; tauto|].
    destruct (year r <? y) eqn:E2; simpl.
    + intros [<- | H]; auto.
    + intros [<- | H]; auto. destruct (IH H); auto.
Qed.

Lemma add_to_group_sorted r gs :
  keys_sorted gs -> keys_sorted (add_to_group r gs).
Proof.
  unfold keys_sorted.
  induction gs as [|[y g] gs IH]; simpl; intros Hs.
  - repeat constructor.
  - inversion Hs as [|? ? Hs' Hall]; subst.
    destruct (year r =? y) eqn:E1; [now constructor|].
    destruct (year r <? y) eqn:E2; simpl.
    + apply Z.ltb_lt in E2. constructor; [now constructor|].
      constructor; [assumption|].
      eapply Forall_impl; [|exact Hall]. simpl; intros; lia.
    + apply Z.eqb_neq in E1. apply Z.ltb_ge in E2.
      constructor; [now apply IH|].
      apply Forall_forall; intros k Hk.
      destruct (add_to_group_keys _ _ _ Hk) as [-> | Hin]; [lia|].
      rewrite Forall_forall in Hall; now apply Hall.
Qed.

Lemma group_of_absent y gs :
  Forall (Z.lt y) (map fst gs) -> group_of y gs = [].
Proof.
  unfold group_of.
  induction gs as [|[y0 g] gs IH]; simpl; [reflexivity|].
  intros H; inversion H; subst.
  destruct (y0 =? y) eqn:E; [apply Z.eqb_eq in E; simpl in *; lia|].
  now apply IH.
Qed.

Lemma group_of_add r gs y :
  keys_sorted gs ->
  group_of y (add_to_group r gs) =
  group_of y gs ++ (if year r =? y then [r] else []).
Proof.
  unfold keys_sorted.
  induction gs as [|[y0 g] gs IH]; intros Hs.
  - unfold group_of; simpl. now destruct (year r =? y).
  - inversion Hs as [|? ? Hs' Hall]; subst. simpl add_to_group.
    destruct (year r =? y0) eqn:E1.
    + apply Z.eqb_eq in E1. unfold group_of; simpl.
      destruct (y0 =? y) eqn:E; simpl.
      * apply Z.eqb_eq in E. replace (year r =? y) with true; [reflexivity|].
        symmetry; apply Z.eqb_eq; lia.
      * apply Z.eqb_neq in E. replace (year r =? y) with false.
        -- now rewrite app_nil_r.
        -- symmetry; apply Z.eqb_neq; lia.
    + destruct (year r <? y0) eqn:E2.
      * apply Z.ltb_lt in E2.
        destruct (year r =? y) eqn:E.
        -- apply Z.eqb_eq in E. subst y.
           rewrite (group_of_absent (year r) ((y0, g) :: gs)).
           ++ unfold group_of; simpl. now rewrite Z.eqb_refl.
           ++ simpl. constructor; [assumption|].
              eapply Forall_impl; [|exact Hall]. simpl; intros; lia.
        -- unfold group_of at 1; simpl. rewrite E.
           now rewrite app_nil_r.
      * apply Z.eqb_neq in E1.
        unfold group_of; simpl.
        destruct (y0 =? y) eqn:E; simpl.
        -- apply Z.eqb_eq in E. replace (year r =? y) with false.
           ++ now rewrite app_nil_r.
           ++ symmetry; apply Z.eqb_neq; lia.
        -- apply (IH Hs').
Qed.

Lemma fold_groups df : forall gs,
  keys_sorted gs ->
  keys_sorted (fold_left (fun gs r => add_to_group r gs) df gs) /\
  forall y,
    group_of y (fold_left (fun gs r => add_to_group r gs) df gs) =
    group_of y gs ++ filter (fun r => year r =? y) df.
Proof.
  induction df as [|r df IH]; intros gs Hs; simpl.
  - split; [assumption | intros; now rewrite app_nil_r].
  - destruct (IH (add_to_group r gs) (add_to_group_sorted r gs Hs)) as [H1 H2].
    split; [assumption|].
    intros y. rewrite H2, group_of_add by assumption.
    rewrite <- app_assoc. now destruct (year r =? y).
Qed.

Lemma groupby_year_sorted df : keys_sorted (groupby_year df).
Proof. apply fold_groups. constructor. Qed.

Lemma groupby_year_group df y :
  group_of y (groupby_year df) = filter (fun r => year r =? y) df.
Proof.
  unfold groupby_year. destruct (fold_groups df [] (SSorted_nil _)) as [_ H].
  now rewrite H.
Qed.

Lemma filter_key_unique (gs : list (Z * list Row)) y :
  keys_sorted gs ->
  filter (fun p => fst p =? y) gs =
  match find (fun p => fst p =? y) gs with
  | Some p => [p]
  | None => []
  end.
Proof.
  unfold keys_sorted.
  induction gs as [|[y0 g] gs IH]; simpl; intros Hs; [reflexivity|].
  inversion Hs as [|? ? Hs' Hall]; subst.
  destruct (y0 =? y) eqn:E.
  - apply Z.eqb_eq in E; subst. f_equal.
    rewrite (IH Hs').
    destruct (find (fun p => fst p =? y) gs) as [[k g']|] eqn:F; [|reflexivity].
    apply find_some in F; destruct F as [Hin Hk]. simpl in Hk.
    apply Z.eqb_eq in Hk; subst.
    rewrite Forall_forall in Hall.
    specialize (Hall y (in_map fst _ _ Hin)). lia.
  - now apply IH.
Qed.

Lemma present_all (xs : list Q) : present (map Some xs) = xs.
Proof. induction xs; simpl; congruence. Qed.

Lemma mean_all_present (xs : list Q) :
  xs <> [] ->
  mean (map Some xs) =
  Some (Qsum xs / inject_Z (Z.of_nat (List.length xs)))%Q.
Proof.
  intros H. unfold mean. rewrite present_all.
  destruct xs; [contradiction | reflexivity].
Qed.

Lemma mean_single (c : option Q) : cell_eq (mean [c]) c.
Proof.
  destruct c as [q|]; unfold mean; simpl; [|exact I].
  field.
Qed.



(** A year far outside the range of int64, and a year that is infinite. *)
Example year_1e19_and_infinite_year :
  (forall parse_number,
     App.clean parse_number
       [mkRaw (Some "000001"%string) None (CNum (inject_Z (10 ^ 19))) None None]
     = Ok [mkRow (Some "000001"%string) None (- 2 ^ 63) None None]) /\
  (forall parse_number,
     App.load_data_body parse_number
       (Some (App.Table [mkRaw (Some "000001"%string) None CInf None None]))
     = (None, [App.error_load_failed App.cast_error])).
Proof. split; reflexivity. Qed.

(** C8.  For every year of the Dataset, [market_avg] has exactly one row
    for it; its two averages are the means of the index and of the
    frequency over the rows of that year and no other (the sum of the
    values divided by their number when no value is missing), and when that
    year has a single row they are that row's own values. *)
Theorem market_avg_is_mean_of_year (df : list Row) (y : Z) :
  In y (map year df) ->
  let group := filter (fun r => year r =? y) df in
  exists e : AvgRow,
    filter (fun a => avg_year a =? y) (App.market_avg df) = [e] /\
    avg_year e = y /\
    avg_index e = mean (map index group) /\
    avg_freq e = mean (map freq group) /\
    (forall xs, map index group = map Some xs ->
       avg_index e = Some (Qsum xs / inject_Z (Z.of_nat (List.length group)))%Q) /\
    (forall xs, map freq group = map Some xs ->
       avg_freq e = Some (Qsum xs / inject_Z (Z.of_nat (List.length group)))%Q) /\
    (forall r, group = [r] ->
       cell_eq (avg_index e) (index r) /\ cell_eq (avg_freq e) (freq r)).
Proof.
  intros Hy group.
  assert (Hne : group <> []).
  { apply in_map_iff in Hy. destruct Hy as (r & Hr & Hin).
    intros E. assert (H : In r group).
    { apply filter_In; split; [assumption | now apply Z.eqb_eq]. }
    rewrite E in H; contradiction. }
  pose proof (groupby_year_group df y) as Hg. fold group in Hg.
  pose proof (filter_key_unique (groupby_year df) y (groupby_year_sorted df)) as Hf.
  unfold group_of in Hg.
  destruct (find (fun p => fst p =? y) (groupby_year df)) as [[k g]|] eqn:F;
    [|congruence].
  simpl in Hg. subst g.
  apply find_some in F. destruct F as [_ Hk]. simpl in Hk.
  apply Z.eqb_eq in Hk. subst k.
  exists (mkAvg y (mean (map index group)) (mean (map freq group))).
  split.
  { unfold App.market_avg.
    assert (Hmap : forall gs : list (Z * list Row),
      filter (fun a => avg_year a =? y)
        (map (fun g => mkAvg (fst g) (mean (map index (snd g)))
                             (mean (map freq (snd g)))) gs) =
      map (fun g => mkAvg (fst g) (mean (map index (snd g)))
                          (mean (map freq (snd g))))
          (filter (fun p => fst p =? y) gs)).
    { induction gs as [|a gs IH]; simpl; [reflexivity|].
      destruct (fst a =? y); simpl; now rewrite IH. }
    rewrite Hmap, Hf. reflexivity. }
  simpl. repeat split; try reflexivity.
  - intros xs Hxs. rewrite Hxs.
    assert (Hlen : List.length group = List.length xs)
      by (rewrite <- (length_map index group), Hxs; apply length_map).
    rewrite Hlen. apply mean_all_present.
    intros ->. destruct group; [contradiction | discriminate].
  - intros xs Hxs. rewrite Hxs.
    assert (Hlen : List.length group = List.length xs)
      by (rewrite <- (length_map freq group), Hxs; apply length_map).
    rewrite Hlen. apply mean_all_present.
    intros ->. destruct group; [contradiction | discriminate].
  - rewrite H. apply mean_single.
  - rewrite H. apply mean_single.
Qed.

Lemma market_avg_is_mean_of_year_witness :
  exists e : AvgRow,
    filter (fun a => avg_year a =? 2021) (App.market_avg scenario) = [e] /\
    avg_year e = 2021 /\
    avg_index e = mean (map index (filter (fun r => year r =? 2021) scenario)) /\
    avg_freq e = mean (map freq (filter (fun r => year r =? 2021) scenario)) /\
    (forall xs,
       map index (filter (fun r => year r =? 2021) scenario) = map Some xs ->
       avg_index e =
         Some (Qsum xs / inject_Z (Z.of_nat
                 (List.length (filter (fun r => year r =? 2021) scenario))))%Q) /\
    (forall xs,
       map freq (filter (fun r => year r =? 2021) scenario) = map Some xs ->
       avg_freq e =
         Some (Qsum xs / inject_Z (Z.of_nat
                 (List.length (filter (fun r => year r =? 2021) scenario))))%Q) /\
    (forall r, filter (fun r => year r =? 2021) scenario = [r] ->
       cell_eq (avg_index e) (index r) /\ cell_eq (avg_freq e) (freq r)).
Proof.
  apply (market_avg_is_mean_of_year scenario 2021).
  simpl. auto.
Defined.

(** The scenario of the specification: the averages of 2020, one company,
    and of 2021, two companies. *)
Example scenario_market_avg :
  map (fun e => (avg_year e, option_map Qred (avg_index e))) (App.market_avg scenario)
  = [(2020, Some 80%Q); (2021, Some (175 # 2))].
Proof. reflexivity. Qed.

(** ** Sorting by year, and the last rows of a sorted series *)

Lemma insert_by_year_perm r l : Permutation (r :: l) (insert_by_year r l).
Proof.
  induction l as [|x l IH]; simpl; [reflexivity|].
  destruct (year r <=? year x); [reflexivity|].
  rewrite perm_swap. now constructor.
Qed.

Lemma sort_values_perm l : Permutation l (sort_values l).
Proof.
  induction l as [|x l IH]; simpl; [constructor|].
  rewrite <- insert_by_year_perm. now constructor.
Qed.

Lemma insert_by_year_sorted r l :
  StronglySorted by_year l -> StronglySorted by_year (insert_by_year r l).
Proof.
  induction l as [|x l IH]; simpl; intros Hs.
  - repeat constructor.
  - inversion Hs as [|? ? Hs' Hall]; subst.
    destruct (year r <=? year x) eqn:E.
    + apply Z.leb_le in E. constructor; [assumption|].
      constructor; [exact E|].
      eapply Forall_impl; [|exact Hall]. unfold by_year; intros; lia.
    + apply Z.leb_gt in E. constructor; [now apply IH|].
      apply Forall_forall; intros z Hz.
      apply (Permutation_in _ (Permutation_sym (insert_by_year_perm r l))) in Hz.
      destruct Hz as [<- | Hz]; [unfold by_year; lia|].
      rewrite Forall_forall in Hall; now apply Hall.
Qed.

Lemma sort_values_sorted l : StronglySorted by_year (sort_values l).
Proof.
  induction l as [|x l IH]; simpl; [constructor|].
  now apply insert_by_year_sorted.
Qed.

Lemma filter_sorted (p : Row -> bool) l :
  StronglySorted by_year l -> StronglySorted by_year (filter p l).
Proof.
  induction 1 as [|x l Hs IH Hall]; simpl; [constructor|].
  destruct (p x); [|assumption].
  constructor; [assumption|].
  apply Forall_forall; intros z Hz. apply filter_In in Hz.
  rewrite Forall_forall in Hall. now apply Hall.
Qed.

Lemma sorted_last_is_max l x :
  StronglySorted by_year (l ++ [x]) -> Forall (fun r => year r <= year x) (l ++ [x]).
Proof.
  induction l as [|a l IH]; simpl; intros Hs.
  - constructor; [lia | constructor].
  - inversion Hs as [|? ? Hs' Hall]; subst.
    constructor; [|now apply IH].
    rewrite Forall_forall in Hall. apply (Hall x).
    apply in_or_app; right; now left.
Qed.

Lemma iloc_last_app {A : Type} (l : list A) (x : A) :
  iloc_last (l ++ [x]) = Some x.
Proof.
  unfold iloc_last. rewrite length_app; simpl.
  replace (List.length l + 1 - 1)%nat with (List.length l) by lia.
  rewrite nth_error_app2 by lia. now rewrite Nat.sub_diag.
Qed.

Lemma iloc_last_nonempty {A : Type} (l : list A) :
  l <> [] -> exists init x, l = init ++ [x] /\ iloc_last l = Some x.
Proof.
  intros H. destruct (exists_last H) as (init & x & ->).
  exists init, x; split; [reflexivity | apply iloc_last_app].
Qed.

Lemma iloc_last_nil {A : Type} (l : list A) : iloc_last l = None -> l = [].
Proof.
  destruct l as [|a l]; [reflexivity|].
  intros H. exfalso.
  destruct (iloc_last_nonempty (a :: l)) as (? & ? & _ & E); [discriminate|].
  congruence.
Qed.

Lemma iloc_before_last_app {A : Type} (l : list A) (p x : A) :
  iloc_before_last (l ++ [p; x]) = Some p.
Proof.
  unfold iloc_before_last. rewrite length_app; simpl.
  replace (List.length l + 2)%nat with (S (S (List.length l))) by lia.
  rewrite nth_error_app2 by lia. now rewrite Nat.sub_diag.
Qed.

Lemma iloc_before_last_single {A : Type} (x : A) : iloc_before_last [x] = None.
Proof. reflexivity. Qed.

(** ** The resolved series *)

Lemma code_is_spec (q : string) (r : Row) :
  App.code_is q r = true <-> code r = Some q.
Proof.
  unfold App.code_is. destruct (code r) as [c|].
  - rewrite String.eqb_eq. split; congruence.
  - split; discriminate.
Qed.

(** A code read in a row selects the rows that have a code and the same
    one; a missing code selects nothing. *)
Lemma same_code_spec (c : option string) (r : Row) :
  App.same_code c r = true <-> c <> None /\ code r = c.
Proof.
  unfold App.same_code. destruct c as [q|].
  - rewrite code_is_spec. split; [intros ->; split; congruence | tauto].
  - split; [discriminate | intros [H _]; congruence].
Qed.

Section SeriesFacts.

Variables (df : list Row) (first_code : option string) (sel : Z * Z).

Lemma target_company_perm :
  Permutation (filter (App.same_code first_code) df)
              (App.target_company df first_code).
Proof. apply sort_values_perm. Qed.

Lemma target_company_In r :
  In r (App.target_company df first_code) <->
  In r df /\ first_code <> None /\ code r = first_code.
Proof.
  rewrite <- same_code_spec. split.
  - intros H. apply (Permutation_in _ (Permutation_sym target_company_perm)) in H.
    now apply filter_In in H.
  - intros H. apply (Permutation_in _ target_company_perm).
    now apply filter_In.
Qed.

Lemma target_company_sorted :
  StronglySorted by_year (App.target_company df first_code).
Proof. apply sort_values_sorted. Qed.

Lemma filtered_company_In r :
  In r (App.filtered_company df first_code sel) <->
  In r df /\ (first_code <> None /\ code r = first_code) /\
  fst sel <= year r <= snd sel.
Proof.
  unfold App.filtered_company. rewrite filter_In, target_company_In.
  unfold App.in_years. rewrite andb_true_iff, !Z.leb_le. tauto.
Qed.

Lemma filtered_company_sorted :
  StronglySorted by_year (App.filtered_company df first_code sel).
Proof. apply filter_sorted, target_company_sorted. Qed.

End SeriesFacts.

(** ** Ranks *)

Lemma aboveQ_spec (v x : Q) : aboveQ v x = true <-> (v < x)%Q.
Proof.
  unfold aboveQ. rewrite negb_true_iff. split.
  - intros H. apply Qnot_le_lt. intros Hle.
    apply Qle_bool_iff in Hle. congruence.
  - intros Hlt. destruct (Qle_bool x v) eqn:E; [|reflexivity].
    apply Qle_bool_iff in E. exfalso. now apply (Qlt_not_le v x).
Qed.

Lemma aboveQ_false (v x : Q) : aboveQ v x = false <-> (x <= v)%Q.
Proof.
  unfold aboveQ. rewrite negb_false_iff. apply Qle_bool_iff.
Qed.

Lemma above_spec (v : Q) (c : option Q) :
  above v c = true <-> exists x, c = Some x /\ (v < x)%Q.
Proof.
  destruct c as [x|]; simpl.
  - rewrite aboveQ_spec. split; [eauto | now intros (y & [= <-] & H)].
  - split; [discriminate | intros (x & [=] & _)].
Qed.

Lemma above_irrefl (v : Q) : above v (Some v) = false.
Proof. simpl. apply aboveQ_false. apply Qle_refl. Qed.

Lemma insert_desc_perm x l : Permutation (x :: l) (insert_desc x l).
Proof.
  induction l as [|y l IH]; simpl; [reflexivity|].
  destruct (Qle_bool y x); [reflexivity|].
  rewrite perm_swap. now constructor.
Qed.

Lemma sort_desc_perm l : Permutation l (sort_desc l).
Proof.
  induction l as [|x l IH]; simpl; [constructor|].
  rewrite <- insert_desc_perm. now constructor.
Qed.

Lemma insert_desc_sorted x l :
  StronglySorted descending l -> StronglySorted descending (insert_desc x l).
Proof.
  induction l as [|y l IH]; simpl; intros Hs.
  - repeat constructor.
  - inversion Hs as [|? ? Hs' Hall]; subst.
    destruct (Qle_bool y x) eqn:E.
    + apply Qle_bool_iff in E. constructor; [assumption|].
      constructor; [exact E|].
      eapply Forall_impl; [|exact Hall].
      unfold descending; intros z Hz. now apply (Qle_trans z y x).
    + constructor; [now apply IH|].
      assert (Hxy : (x <= y)%Q).
      { apply Qlt_le_weak, Qnot_le_lt. intros Hle.
        apply Qle_bool_iff in Hle. congruence. }
      apply Forall_forall; intros z Hz.
      apply (Permutation_in _ (Permutation_sym (insert_desc_perm x l))) in Hz.
      destruct Hz as [<- | Hz]; [exact Hxy|].
      rewrite Forall_forall in Hall; now apply Hall.
Qed.

Lemma sort_desc_sorted l : StronglySorted descending (sort_desc l).
Proof.
  induction l as [|x l IH]; simpl; [constructor|].
  now apply insert_desc_sorted.
Qed.

(** In a descending order the values above [v] come first: the place of
    the first value not above [v] counts them. *)
Lemma place_before_counts v l :
  StronglySorted descending l ->
  place_before v l = List.length (filter (aboveQ v) l).
Proof.
  induction 1 as [|x l Hs IH Hall]; simpl; [reflexivity|].
  destruct (aboveQ v x) eqn:E; simpl; [now rewrite IH|].
  apply aboveQ_false in E.
  rewrite (proj2 (List.length_zero_iff_nil _)); [reflexivity|].
  apply filter_none. eapply Forall_impl; [|exact Hall].
  unfold descending; intros z Hz. apply aboveQ_false.
  now apply (Qle_trans z x v).
Qed.

Lemma filter_length_perm {A : Type} (p : A -> bool) (l l' : list A) :
  Permutation l l' -> List.length (filter p l) = List.length (filter p l').
Proof.
  induction 1 as [|x l l' _ IH|x y l|l l' l'' _ IH1 _ IH2]; simpl.
  - reflexivity.
  - destruct (p x); simpl; now rewrite IH.
  - destruct (p x), (p y); reflexivity.
  - now rewrite IH1.
Qed.

Lemma filter_above_present v col :
  List.length (filter (aboveQ v) (present col)) =
  List.length (filter (above v) col).
Proof.
  induction col as [|[x|] col IH]; simpl; [reflexivity| |assumption].
  destruct (aboveQ v x); simpl; now rewrite IH.
Qed.

(** The rank in closed form: one more than the number of values of the
    column strictly above the value ranked; ties share the best rank and
    the next value below skips the places they take. *)
Lemma rank_of_count (col : list (option Q)) (v : Q) :
  rank_of col (Some v) =
  Some (1 + Z.of_nat (List.length (filter (above v) col))).
Proof.
  unfold rank_of. do 3 f_equal.
  rewrite (place_before_counts v _ (sort_desc_sorted _)).
  rewrite <- (filter_length_perm _ _ _ (sort_desc_perm (present col))).
  apply filter_above_present.
Qed.

(** Equal values share a rank. *)
Lemma rank_of_ties (col : list (option Q)) (x y : Q) :
  (x == y)%Q -> rank_of col (Some x) = rank_of col (Some y).
Proof.
  intros E. rewrite !rank_of_count. do 4 f_equal.
  apply filter_ext. intros [z|]; simpl; [|reflexivity].
  destruct (aboveQ x z) eqn:E1, (aboveQ y z) eqn:E2; try reflexivity.
  - apply aboveQ_spec in E1. apply aboveQ_false in E2.
    rewrite E in E1. exfalso. now apply (Qlt_not_le y z).
  - apply aboveQ_spec in E2. apply aboveQ_false in E1.
    rewrite <- E in E2. exfalso. now apply (Qlt_not_le x z).
Qed.

(** The example of the specification: 90, 90, 80 rank 1, 1, 3. *)
Example rank_90_90_80 :
  rank_desc_min [Some 90%Q; Some 90%Q; Some 80%Q] = [Some 1; Some 1; Some 3].
Proof. reflexivity. Qed.

Lemma select_maps {A B : Type} (f : A -> B) (p : A -> bool) (l : list A) :
  select (map f l) (map p l) = map f (filter p l).
Proof.
  unfold select.
  induction l as [|a l IH]; simpl; [reflexivity|].
  destruct (p a); simpl; now rewrite IH.
Qed.

Lemma filter_length_map {A B : Type} (f : A -> B) (p : B -> bool) (l : list A) :
  List.length (filter p (map f l)) = List.length (filter (fun a => p (f a)) l).
Proof.
  induction l as [|a l IH]; simpl; [reflexivity|].
  destruct (p (f a)); simpl; now rewrite IH.
Qed.

Lemma filter_filter {A : Type} (p q : A -> bool) (l : list A) :
  filter p (filter q l) = filter (fun a => q a && p a) l.
Proof.
  induction l as [|a l IH]; simpl; [reflexivity|].
  destruct (q a); simpl; [destruct (p a)|]; now rewrite IH.
Qed.

Lemma filter_length_lt {A : Type} (p : A -> bool) (l : list A) (x : A) :
  In x l -> p x = false -> (List.length (filter p l) < List.length l)%nat.
Proof.
  induction l as [|a l IH]; simpl; [contradiction|].
  intros [-> | Hin] Hx.
  - rewrite Hx. pose proof (filter_length_le p l). lia.
  - specialize (IH Hin Hx). destruct (p a); simpl; lia.
Qed.

Lemma market_rank_first df yr c pre rec post :
  df = pre ++ rec :: post ->
  Forall (fun r => key_is yr c r = false) pre ->
  key_is yr c rec = true ->
  App.market_rank df yr c =
  match index rec with
  | Some v => App.RankNum (1 + Z.of_nat (List.length (ahead df yr v)))
  | None => App.RankNaN
  end.
Proof.
  intros Hdf Hpre Hrec.
  unfold App.market_rank. cbv zeta.
  unfold rank_desc_min. rewrite map_map, select_maps.
  unfold App.current_market at 2. rewrite filter_filter.
  fold (key_is yr c).
  assert (Hhead : exists tl, filter (key_is yr c) df = rec :: tl).
  { rewrite Hdf, filter_app, (filter_none _ _ Hpre). simpl. rewrite Hrec.
    eexists; reflexivity. }
  destruct Hhead as [tl ->]. cbn [map].
  destruct (index rec) as [v|]; [|reflexivity].
  rewrite rank_of_count. do 3 f_equal.
  rewrite filter_length_map. unfold App.current_market, ahead.
  now rewrite filter_filter.
Qed.

Lemma find_first {A : Type} (p : A -> bool) (l : list A) (x : A) :
  In x l -> p x = true -> exists y, find p l = Some y.
Proof.
  induction l as [|a l IH]; simpl; [contradiction|].
  intros [-> | Hin] Hp.
  - rewrite Hp. eauto.
  - destruct (p a); eauto.
Qed.

Lemma find_split {A : Type} (p : A -> bool) (l : list A) (x : A) :
  find p l = Some x ->
  exists pre post,
    l = pre ++ x :: post /\ Forall (fun a => p a = false) pre /\ p x = true.
Proof.
  induction l as [|a l IH]; simpl; [discriminate|].
  destruct (p a) eqn:E.
  - intros [= ->]. exists [], l; auto.
  - intros H. destruct (IH H) as (pre & post & -> & Hpre & Hx).
    exists (a :: pre), post; auto.
Qed.

(** ** The metrics of a non-empty series *)

Section MetricsFacts.

Variables (df : list Row) (first_code : option string) (sel : Z * Z).

Let series := App.filtered_company df first_code sel.

Lemma metrics_of_series init latest :
  App.metrics df (init ++ [latest]) first_code =
  Some (App.mkMetrics (name latest) first_code (index latest) (year latest)
          (freq latest)
          match iloc_before_last (init ++ [latest]) with
          | Some p => App.rounded_difference (index latest) (index p)
          | None => Some 0%Q
          end
          (App.market_rank df (year latest) first_code)
          (Z.of_nat (List.length (App.current_market df (year latest))))).
Proof. unfold App.metrics. now rewrite iloc_last_app. Qed.

Lemma metrics_none filtered :
  App.metrics df filtered first_code = None <-> filtered = [].
Proof.
  unfold App.metrics. split.
  - destruct (iloc_last filtered) eqn:E; [discriminate|].
    intros _. now apply iloc_last_nil.
  - intros ->. reflexivity.
Qed.

(** The last row of the series is a row of the Dataset with the resolved
    code, and no row of the series has a later year. *)
Lemma series_last init latest :
  series = init ++ [latest] ->
  In latest df /\ code latest = first_code /\
  Forall (fun r => year r <= year latest) series.
Proof.
  intros E.
  assert (Hin : In latest series)
    by (rewrite E; apply in_or_app; right; now left).
  apply filtered_company_In in Hin. destruct Hin as (H1 & [_ H2] & _).
  repeat split; try assumption.
  rewrite E. apply sorted_last_is_max. rewrite <- E.
  apply filtered_company_sorted.
Qed.

Lemma series_has_code init latest :
  series = init ++ [latest] -> first_code <> None.
Proof.
  intros E.
  assert (Hin : In latest series)
    by (rewrite E; apply in_or_app; right; now left).
  apply filtered_company_In in Hin. tauto.
Qed.

(** The row whose rank is read exists as soon as the series is not empty. *)
Lemma rank_row_exists init latest :
  series = init ++ [latest] ->
  exists rec, find (key_is (year latest) first_code) df = Some rec.
Proof.
  intros E. destruct (series_last init latest E) as (Hin & Hc & _).
  apply (find_first _ _ latest Hin).
  unfold key_is. rewrite Z.eqb_refl. simpl.
  apply same_code_spec. split; [|assumption].
  now apply (series_has_code init latest).
Qed.

Lemma market_rank_found yr rec :
  find (key_is yr first_code) df = Some rec ->
  In rec df /\ code rec = first_code /\ year rec = yr /\
  App.market_rank df yr first_code =
  match index rec with
  | Some v => App.RankNum (1 + Z.of_nat (List.length (ahead df yr v)))
  | None => App.RankNaN
  end.
Proof.
  intros F. destruct (find_split _ _ _ F) as (pre & post & Hdf & Hpre & Hrec).
  pose proof Hrec as Hk. unfold key_is in Hk.
  apply andb_true_iff in Hk. destruct Hk as [Hy Hc].
  apply Z.eqb_eq in Hy. apply same_code_spec in Hc. destruct Hc as [_ Hc].
  repeat split; try assumption.
  - rewrite Hdf. apply in_or_app; right; now left.
  - now apply (market_rank_first df yr first_code pre rec post).
Qed.

Lemma ahead_lt_market yr rec v :
  In rec df -> year rec = yr -> index rec = Some v ->
  (List.length (ahead df yr v) < List.length (App.current_market df yr))%nat.
Proof.
  intros Hin Hy Hv.
  unfold ahead, App.current_market. rewrite <- filter_filter.
  apply (filter_length_lt _ _ rec).
  - apply filter_In; split; [assumption | now apply Z.eqb_eq].
  - rewrite Hv. apply above_irrefl.
Qed.

End MetricsFacts.

(** C1.  When the year-filtered series of the resolved code is not empty,
    the metrics exist; the year they rank in is the latest year of the
    series; the rank is read on the first row of the whole Dataset with
    that year and that code, and it is one more than the number of rows of
    the whole Dataset, whatever the selected years, that have that year and
    an index strictly above that row's: descending, ties sharing the best
    rank.  The company count is the number of rows of the Dataset in that
    year.  Where a code has one row per year, that row is the latest record
    of the series and the rank is that of the latest index shown. *)
Theorem market_rank_is_min_rank_in_latest_year
  (df : list Row) (first_code : option string) (sel : Z * Z) :
  let series := App.filtered_company df first_code sel in
  series <> [] ->
  exists (m : App.Metrics) (latest rec : Row),
    App.metrics df series first_code = Some m /\
    iloc_last series = Some latest /\
    Forall (fun r => year r <= year latest) series /\
    App.latest_yr m = year latest /\
    App.latest_idx m = index latest /\
    find (key_is (year latest) first_code) df = Some rec /\
    App.total_comps m =
      Z.of_nat (List.length (filter (fun r => year r =? year latest) df)) /\
    App.my_rank m =
      match index rec with
      | Some v =>
          App.RankNum (1 + Z.of_nat (List.length (ahead df (year latest) v)))
      | None => App.RankNaN
      end /\
    ((forall r1 r2, In r1 df -> In r2 df ->
        code r1 = code r2 -> year r1 = year r2 -> r1 = r2) ->
     rec = latest).
Proof.
  intros series Hne.
  destruct (iloc_last_nonempty series Hne) as (init & latest & E & Hlast).
  destruct (rank_row_exists df first_code sel init latest E) as [rec F].
  destruct (series_last df first_code sel init latest E) as (Hin & Hc & Hmax).
  destruct (market_rank_found df first_code _ rec F) as (Hrin & Hrc & Hry & Hrank).
  eexists; exists latest, rec.
  split; [fold series; rewrite E; apply metrics_of_series|].
  simpl. repeat split; try assumption; try reflexivity.
  intros Huniq. apply Huniq; try assumption; congruence.
Qed.

Lemma market_rank_is_min_rank_in_latest_year_witness :
  exists (m : App.Metrics) (latest rec : Row),
    App.metrics scenario (App.filtered_company scenario (Some "T1"%string) (2020, 2021)) (Some "T1"%string)
      = Some m /\
    iloc_last (App.filtered_company scenario (Some "T1"%string) (2020, 2021)) = Some latest /\
    Forall (fun r => year r <= year latest)
           (App.filtered_company scenario (Some "T1"%string) (2020, 2021)) /\
    App.latest_yr m = year latest /\
    App.latest_idx m = index latest /\
    find (key_is (year latest) (Some "T1"%string)) scenario = Some rec /\
    App.total_comps m =
      Z.of_nat (List.length (filter (fun r => year r =? year latest) scenario)) /\
    App.my_rank m =
      match index rec with
      | Some v =>
          App.RankNum (1 + Z.of_nat (List.length (ahead scenario (year latest) v)))
      | None => App.RankNaN
      end /\
    ((forall r1 r2, In r1 scenario -> In r2 scenario ->
        code r1 = code r2 -> year r1 = year r2 -> r1 = r2) ->
     rec = latest).
Proof.
  apply (market_rank_is_min_rank_in_latest_year scenario (Some "T1"%string) (2020, 2021)).
  vm_compute. discriminate.
Defined.

(** The scenario of the specification: T1 ranks second of two in 2021. *)
Example scenario_rank :
  option_map App.my_rank
    (App.metrics scenario (App.filtered_company scenario (Some "T1"%string) (2020, 2021)) (Some "T1"%string))
  = Some (App.RankNum 2).
Proof. reflexivity. Qed.

(** C10 (as amended).  When the year-filtered series is not empty, the
    resolved code has a row in the whole Dataset in the latest year of the
    series, so the rank lookup finds a row and the rank is never the "N/A"
    fallback.  When the index of the row the rank is read on is present,
    the rank is an integer from 1 to the company count and its conversion
    by [int] succeeds; the rank is NaN exactly when that index is missing. *)
Theorem rank_lookup_finds_a_row
  (df : list Row) (first_code : option string) (sel : Z * Z) :
  let series := App.filtered_company df first_code sel in
  series <> [] ->
  exists (m : App.Metrics) (rec : Row),
    App.metrics df series first_code = Some m /\
    find (key_is (App.latest_yr m) first_code) df = Some rec /\
    In rec df /\ code rec = first_code /\ year rec = App.latest_yr m /\
    App.my_rank m <> App.RankNA /\
    (App.my_rank m = App.RankNaN <-> index rec = None) /\
    (forall v, index rec = Some v ->
       exists r,
         App.my_rank m = App.RankNum r /\
         1 <= r <= App.total_comps m /\
         App.int_of_rank (App.my_rank m) = Ok r).
Proof.
  intros series Hne.
  destruct (iloc_last_nonempty series Hne) as (init & latest & E & Hlast).
  destruct (rank_row_exists df first_code sel init latest E) as [rec F].
  destruct (market_rank_found df first_code _ rec F) as (Hrin & Hrc & Hry & Hrank).
  eexists; exists rec.
  split; [fold series; rewrite E; apply metrics_of_series|].
  simpl. rewrite Hrank.
  repeat split; try assumption.
  - destruct (index rec); discriminate.
  - destruct (index rec); [discriminate | reflexivity].
  - intros ->. reflexivity.
  - intros v Hv. rewrite Hv. eexists; split; [reflexivity|].
    pose proof (ahead_lt_market df (year latest) rec v Hrin Hry Hv).
    split; [lia | reflexivity].
Qed.

Lemma rank_lookup_finds_a_row_witness :
  exists (m : App.Metrics) (rec : Row),
    App.metrics scenario (App.filtered_company scenario (Some "T1"%string) (2020, 2021)) (Some "T1"%string)
      = Some m /\
    find (key_is (App.latest_yr m) (Some "T1"%string)) scenario = Some rec /\
    In rec scenario /\ code rec = Some "T1"%string /\ year rec = App.latest_yr m /\
    App.my_rank m <> App.RankNA /\
    (App.my_rank m = App.RankNaN <-> index rec = None) /\
    (forall v, index rec = Some v ->
       exists r,
         App.my_rank m = App.RankNum r /\
         1 <= r <= App.total_comps m /\
         App.int_of_rank (App.my_rank m) = Ok r).
Proof.
  apply (rank_lookup_finds_a_row scenario (Some "T1"%string) (2020, 2021)).
  vm_compute. discriminate.
Defined.

(** C10, the claim as stated fails: the company's only row has a missing
    index; the lookup finds the row, its rank is NaN, and [int] raises
    ValueError when the rank card is rendered. *)
Lemma missing_index_breaks_rank_card :
  let df := [mkRow (Some "000001"%string) (Some "PAB"%string) 2020 None (Some 12%Q)] in
  App.filtered_company df (Some "000001"%string) (2010, 2020) = df /\
  option_map App.my_rank
    (App.metrics df (App.filtered_company df (Some "000001"%string) (2010, 2020)) (Some "000001"%string))
    = Some App.RankNaN /\
  App.int_of_rank App.RankNaN = Raise ValueError /\
  (forall parse_number re_other,
     snd (App.main parse_number re_other
            (App.mkInputs App.ByCode "000001" (2010, 2020))
            (fresh (Some file_without_index)))
     = Raise ValueError).
Proof. vm_compute. repeat split. Qed.

(** The rounding of [np.float64]: 2.675 gives 2.68 and 1.015 gives 1.01,
    where the nearest hundredth of the float64 is 2.67 and of the decimal
    1.02. *)
Example np_round2_2675_1015 :
  PrimFloat.eqb (Py.np_round2 (Py.float_of_Q (2675 # 1000)))
                (Py.float_of_Q (268 # 100)) = true /\
  PrimFloat.eqb (Py.np_round2 (Py.float_of_Q (1015 # 1000)))
                (Py.float_of_Q (101 # 100)) = true.
Proof. split; vm_compute; reflexivity. Qed.

(** C3 (as amended).  For a non-empty year-filtered series, whatever the
    Dataset around it: the latest record is the last of the series and no
    record of the series has a later year; with one record the delta is
    exactly 0; with more, the delta is the float64 difference of the latest
    index and the index of the record just before the last, rounded to two
    decimals by [round] (NaN when either index is missing), and no earlier
    record has a later year than that one. *)
Theorem delta_is_rounded_difference
  (df : list Row) (first_code : option string) (sel : Z * Z) :
  let series := App.filtered_company df first_code sel in
  series <> [] ->
  exists (m : App.Metrics) (init : list Row) (latest : Row),
    App.metrics df series first_code = Some m /\
    series = init ++ [latest] /\
    App.latest_idx m = index latest /\
    Forall (fun r => year r <= year latest) series /\
    (init = [] -> App.idx_delta m = Some 0%Q) /\
    (forall init' prev, init = init' ++ [prev] ->
       App.idx_delta m = App.rounded_difference (index latest) (index prev) /\
       (forall a b, index latest = Some a -> index prev = Some b ->
          App.idx_delta m =
          Py.Q_of_float
            (Py.np_round2 (PrimFloat.sub (Py.float_of_Q a) (Py.float_of_Q b)))) /\
       (index latest = None \/ index prev = None -> App.idx_delta m = None) /\
       Forall (fun r => year r <= year prev) init).
Proof.
  intros series Hne.
  destruct (iloc_last_nonempty series Hne) as (init & latest & E & Hlast).
  destruct (series_last df first_code sel init latest E) as (_ & _ & Hmax).
  eexists; exists init, latest.
  split; [fold series; rewrite E; apply metrics_of_series|].
  cbn [App.latest_idx App.idx_delta].
  split; [assumption|]. split; [reflexivity|]. split; [assumption|].
  split; [intros ->; reflexivity|].
  intros init' prev ->.
  rewrite <- app_assoc. cbn [app]. rewrite iloc_before_last_app.
  split; [reflexivity|]. split; [|split].
  - intros a b -> ->. reflexivity.
  - intros [-> | ->]; [reflexivity|]. now destruct (index latest).
  - apply sorted_last_is_max.
    pose proof (filtered_company_sorted df first_code sel) as Hs.
    fold series in Hs. rewrite E in Hs.
    clear - Hs. induction (init' ++ [prev]) as [|a l IH]; simpl in *.
    + constructor.
    + inversion Hs as [|? ? Hs' Hall]; subst.
      constructor; [now apply IH|].
      apply Forall_app in Hall. tauto.
Qed.

Lemma delta_is_rounded_difference_witness :
  exists (m : App.Metrics) (init : list Row) (latest : Row),
    App.metrics fractional
      (App.filtered_company fractional (Some "T1"%string) (2019, 2021))
      (Some "T1"%string) = Some m /\
    App.filtered_company fractional (Some "T1"%string) (2019, 2021)
      = init ++ [latest] /\
    App.latest_idx m = index latest /\
    Forall (fun r => year r <= year latest)
           (App.filtered_company fractional (Some "T1"%string) (2019, 2021)) /\
    (init = [] -> App.idx_delta m = Some 0%Q) /\
    (forall init' prev, init = init' ++ [prev] ->
       App.idx_delta m = App.rounded_difference (index latest) (index prev) /\
       (forall a b, index latest = Some a -> index prev = Some b ->
          App.idx_delta m =
          Py.Q_of_float
            (Py.np_round2 (PrimFloat.sub (Py.float_of_Q a) (Py.float_of_Q b)))) /\
       (index latest = None \/ index prev = None -> App.idx_delta m = None) /\
       Forall (fun r => year r <= year prev) init).
Proof.
  apply (delta_is_rounded_difference fractional (Some "T1"%string) (2019, 2021)).
  vm_compute. discriminate.
Defined.

(** The scenario of the specification: the delta of T1 over 2020-2021 is 5,
    and over 2021 alone, one record, it is 0. *)
Example scenario_delta :
  option_map (option_map Qred) (option_map App.idx_delta
    (App.metrics scenario (App.filtered_company scenario (Some "T1"%string) (2020, 2021))
       (Some "T1"%string)))
  = Some (Some 5%Q) /\
  option_map App.idx_delta
    (App.metrics scenario (App.filtered_company scenario (Some "T1"%string) (2021, 2021))
       (Some "T1"%string))
  = Some (Some 0%Q).
Proof. split; vm_compute; reflexivity. Qed.

(** On [fractional]: over 2020-2021 the delta is the float64 5.12, over
    2018-2019 it is the float64 2.68, and with a missing index, over
    2021-2022, it is NaN. *)
Example fractional_deltas :
  option_map App.idx_delta
    (App.metrics fractional
       (App.filtered_company fractional (Some "T1"%string) (2020, 2021))
       (Some "T1"%string))
  = Some (Py.Q_of_float (Py.float_of_Q (512 # 100))) /\
  option_map App.idx_delta
    (App.metrics fractional
       (App.filtered_company fractional (Some "T1"%string) (2018, 2019))
       (Some "T1"%string))
  = Some (Py.Q_of_float (Py.float_of_Q (268 # 100))) /\
  option_map App.idx_delta
    (App.metrics fractional
       (App.filtered_company fractional (Some "T1"%string) (2021, 2022))
       (Some "T1"%string))
  = Some None.
Proof. repeat split; vm_compute; reflexivity. Qed.

(** C3, the claim as stated fails: with the indexes 80 and 85.123 the
    delta shown is the float64 5.12, which is below 5.123, where the
    difference of the two float64 indexes is 5.123000000000005. *)
Lemma delta_is_not_the_plain_difference :
  let shown :=
    option_map App.idx_delta
      (App.metrics fractional
         (App.filtered_company fractional (Some "T1"%string) (2020, 2021))
         (Some "T1"%string)) in
  let difference :=
    PrimFloat.sub (Py.float_of_Q (85123 # 1000)) (Py.float_of_Q 80) in
  shown = Some (Py.Q_of_float (Py.float_of_Q (512 # 100))) /\
  (exists d, shown = Some (Some d) /\ (d < 5123 # 1000)%Q) /\
  PrimFloat.eqb difference (Py.float_of_Q (512 # 100)) = false /\
  PrimFloat.ltb (Py.float_of_Q (5123 # 1000)) difference = true.
Proof.
  vm_compute. split; [reflexivity|]. split; [|split; reflexivity].
  eexists. split; reflexivity.
Qed.

(** ** The resolver *)

Lemma prefix_append (p s : string) :
  String.prefix p s = true <-> exists b, s = (p ++ b)%string.
Proof.
  revert s. induction p as [|c p IH]; intros s.
  - destruct s; simpl; split; eauto.
  - destruct s as [|d s]; simpl.
    + split; [discriminate | intros (b & [=])].
    + destruct (Ascii.ascii_dec c d) as [->|Hne].
      * rewrite IH. split; intros (b & E); exists b; congruence.
      * split; [discriminate | intros (b & [= E _]); congruence].
Qed.

(** [is_substring] is containment: the text is the pattern between two
    other texts. *)
Lemma is_substring_spec (p s : string) :
  Re.is_substring p s = true <-> exists a b, s = (a ++ p ++ b)%string.
Proof.
  induction s as [|d s IH].
  - cbn [Re.is_substring]. rewrite orb_false_r, prefix_append. split.
    + intros (b & E). exists EmptyString, b. exact E.
    + intros (a & b & E). destruct a; [eauto|discriminate].
  - cbn [Re.is_substring]. rewrite orb_true_iff, prefix_append, IH. split.
    + intros [(b & E) | (a & b & E)].
      * exists EmptyString, b. exact E.
      * exists (String d a), b. simpl. now rewrite E.
    + intros (a & b & E). destruct a as [|c a]; simpl in E.
      * left; eauto.
      * right. injection E as _ E. eauto.
Qed.

Section ResolverFacts.

Variable re_other : string -> option (string -> bool).

Let matches := App.matches re_other.

(** The rows found are the rows of the Dataset that satisfy one test, in
    the order of the Dataset. *)
Lemma matches_filter text df m q found :
  matches text df m q = Ok found -> exists p, found = filter p df.
Proof.
  unfold matches, App.matches. destruct m.
  - destruct (filter (App.name_is q) df) as [|x xs] eqn:F.
    + destruct text; [|discriminate]. unfold Re.str_contains.
      destruct (Re.compile re_other q) as [search|]; simpl; [|discriminate].
      intros [= <-].
      exists (fun r => match name r with Some s => search s | None => false end).
      rewrite map_map. apply select_mask.
    + intros [= <-]. exists (App.name_is q). now rewrite F.
  - intros [= <-]. eauto.
Qed.

Lemma matches_exact text df q :
  filter (App.name_is q) df <> [] ->
  matches text df App.ByName q = Ok (filter (App.name_is q) df).
Proof.
  unfold matches, App.matches.
  destruct (filter (App.name_is q) df); [contradiction | reflexivity].
Qed.

Lemma matches_literal df q :
  filter (App.name_is q) df = [] -> Re.literal q = true ->
  matches true df App.ByName q =
  Ok (filter (fun r => match name r with
                       | Some s => Re.is_substring q s
                       | None => false
                       end) df).
Proof.
  unfold matches, App.matches, Re.str_contains, Re.compile.
  intros -> ->. simpl. f_equal. rewrite map_map. apply select_mask.
Qed.

Lemma matches_nothing_to_repeat df q :
  filter (App.name_is q) df = [] ->
  Re.literal q = false -> Re.nothing_to_repeat q = true ->
  matches true df App.ByName q = Raise ReError.
Proof.
  unfold matches, App.matches, Re.str_contains, Re.compile.
  intros -> -> ->. reflexivity.
Qed.

Lemma matches_not_text df q :
  filter (App.name_is q) df = [] ->
  matches false df App.ByName q = Raise AttributeError.
Proof. unfold matches, App.matches. now intros ->. Qed.

End ResolverFacts.

(** ** The page above its content *)

Lemma year_bounds_rows (df : list Row) :
  df <> [] ->
  exists lo hi, App.year_bound Z.min df = Ok lo /\ App.year_bound Z.max df = Ok hi.
Proof.
  intros Hne. unfold App.year_bound.
  destruct df as [|r df]; [contradiction|]. simpl. eauto.
Qed.

Lemma rbind_lift_ok {A B : Type} (a : A) (k : A -> App.Render B) :
  App.rbind (App.lift (Ok a)) k = k a.
Proof. unfold App.rbind, App.lift. now destruct (k a). Qed.

(** On a Dataset that has rows the sidebar, the title and the line of the
    data source are shown, and what follows is the content. *)
Lemma render_with_rows re_other text df avg inp :
  df <> [] ->
  App.render re_other text df avg inp =
  (page_head (App.mode inp) df ++ fst (App.content re_other text df avg inp),
   snd (App.content re_other text df avg inp)).
Proof.
  intros Hne. unfold App.render, page_head, App.sidebar.
  destruct (year_bounds_rows df Hne) as (lo & hi & -> & ->).
  destruct (App.content re_other text df avg inp) as [out r].
  cbn. reflexivity.
Qed.

(** The elements above the content, with the bounds of the slider. *)
Lemma page_head_with_rows m df :
  df <> [] ->
  exists lo hi,
    App.year_bound Z.min df = Ok lo /\ App.year_bound Z.max df = Ok hi /\
    page_head m df =
    [ App.sidebar_title; App.rule; App.radio_search_mode; App.text_input m;
      App.slider lo hi; App.rule; App.heading_quick_access ] ++
    map (fun c => App.button (fst c) (snd c)) App.top_companies ++
    [ App.page_title; App.data_source lo hi ].
Proof.
  intros Hne. unfold page_head, App.sidebar.
  destruct (year_bounds_rows df Hne) as (lo & hi & Hlo & Hhi).
  exists lo, hi. rewrite Hlo, Hhi. repeat split.
Qed.

(** Nothing above the content is a card or the tabs. *)
Lemma page_head_plain m df :
  df <> [] -> existsb after_rank_card (page_head m df) = false.
Proof.
  intros Hne. destruct (page_head_with_rows m df Hne) as (lo & hi & _ & _ & ->).
  reflexivity.
Qed.

(** On a Dataset without rows [main] stops in the sidebar, at line 124. *)
Lemma render_without_rows re_other text avg inp :
  App.render re_other text [] avg inp =
  ([App.sidebar_title; App.rule; App.radio_search_mode;
    App.text_input (App.mode inp)], Raise ValueError).
Proof. reflexivity. Qed.

Lemma content_of_found re_other text df avg inp first rest :
  App.query inp <> EmptyString ->
  App.matches re_other text df (App.mode inp) (App.query inp) = Ok (first :: rest) ->
  App.content re_other text df avg inp =
  App.dashboard df avg
    (App.filtered_company df (code first) (App.selected_years inp))
    (code first) (App.selected_years inp).
Proof.
  intros Hq Hm. unfold App.content.
  apply String.eqb_neq in Hq. rewrite Hq, Hm, rbind_lift_ok. reflexivity.
Qed.

(** The code of a row whose code cell is empty is the code of no row. *)
Lemma target_company_no_code (df : list Row) : App.target_company df None = [].
Proof.
  unfold App.target_company.
  replace (filter (App.same_code None) df) with (@nil Row); [reflexivity|].
  induction df as [|r df IH]; [reflexivity | exact IH].
Qed.

(** C6 (as amended).  When a query that is not empty finds rows, the code
    resolved is that of the first of them, which is the first row of the
    Dataset, in its own order, among the rows found, and the page [main]
    renders is the dashboard of the series of that code in the selected
    years.  When that row has a code, the series holds every row of the
    whole Dataset with that code, each as many times as the Dataset has it
    and whether or not the query found it, the row found among them; when
    its code cell is empty the series is empty.  The series is in ascending
    order of the year. *)
Theorem resolver_first_match_full_history
  (re_other : string -> option (string -> bool)) (text_names : bool)
  (df : list Row) (avg : list AvgRow) (inp : App.Inputs) (found : list Row) :
  App.query inp <> EmptyString ->
  App.matches re_other text_names df (App.mode inp) (App.query inp) = Ok found ->
  found <> [] ->
  exists (first : Row) (pre post : list Row),
    hd_error found = Some first /\
    df = pre ++ first :: post /\
    Forall (fun r => ~ In r found) pre /\
    let series := App.target_company df (code first) in
    let page :=
      App.dashboard df avg (filter (App.in_years (App.selected_years inp)) series)
        (code first) (App.selected_years inp) in
    App.render re_other text_names df avg inp
      = (page_head (App.mode inp) df ++ fst page, snd page) /\
    (forall c, code first = Some c ->
       Permutation (filter (App.code_is c) df) series /\
       (forall r, In r series <-> In r df /\ code r = Some c) /\
       In first series) /\
    (code first = None -> series = []) /\
    StronglySorted by_year series.
Proof.
  intros Hq Hm Hne.
  destruct (matches_filter re_other _ df _ _ found Hm) as [p Hp].
  destruct found as [|first tl]; [contradiction|].
  symmetry in Hp.
  destruct (filter_head_split p df first tl Hp) as (pre & post & Hdf & Hpre & Hf & _).
  exists first, pre, post. split; [reflexivity|]. split; [assumption|]. split.
  - rewrite <- Hp. eapply Forall_impl; [|exact Hpre].
    intros r Hr Hin. apply filter_In in Hin. destruct Hin as [_ Hin]. congruence.
  - cbv zeta. split; [|split; [|split]].
    + rewrite render_with_rows by (rewrite Hdf; now destruct pre).
      now rewrite (content_of_found _ _ _ _ _ first tl Hq Hm).
    + intros c Hc. rewrite Hc.
      assert (Hin : forall r, In r (App.target_company df (Some c))
                              <-> In r df /\ code r = Some c).
      { intros r. rewrite target_company_In. split.
        - intros (H1 & _ & H2). auto.
        - intros (H1 & H2). split; [assumption|]. split; [discriminate | assumption]. }
      split; [apply (target_company_perm df (Some c))|]. split; [exact Hin|].
      apply Hin. split; [|assumption]. rewrite Hdf. apply in_elt.
    + intros Hc. rewrite Hc. apply target_company_no_code.
    + apply target_company_sorted.
Qed.

Lemma resolver_first_match_full_history_witness :
  exists (first : Row) (pre post : list Row),
    hd_error (filter (fun r => match name r with
                               | Some s => Re.is_substring "Alpha" s
                               | None => false
                               end) renamed) = Some first /\
    renamed = pre ++ first :: post /\
    Forall (fun r => ~ In r (filter (fun r => match name r with
                                              | Some s => Re.is_substring "Alpha" s
                                              | None => false
                                              end) renamed)) pre /\
    let series := App.target_company renamed (code first) in
    let page :=
      App.dashboard renamed (App.market_avg renamed)
        (filter (App.in_years (2010, 2022)) series) (code first) (2010, 2022) in
    App.render (fun _ => None) true renamed (App.market_avg renamed)
      (App.mkInputs App.ByName "Alpha" (2010, 2022))
      = (page_head App.ByName renamed ++ fst page, snd page) /\
    (forall c, code first = Some c ->
       Permutation (filter (App.code_is c) renamed) series /\
       (forall r, In r series <-> In r renamed /\ code r = Some c) /\
       In first series) /\
    (code first = None -> series = []) /\
    StronglySorted by_year series.
Proof.
  apply (resolver_first_match_full_history (fun _ => None) true renamed
           (App.market_avg renamed) (App.mkInputs App.ByName "Alpha" (2010, 2022))).
  - discriminate.
  - reflexivity.
  - vm_compute. discriminate.
Defined.

(** On the Dataset [renamed] the query "Alpha" finds three rows of two
    codes; the code taken is T1, that of the second row of the Dataset, and
    the series has the three rows of T1 by year, the one under the name
    "Delta Bank" included; the page is that of T1 in 2022. *)
Example resolver_on_renamed :
  App.matches (fun _ => None) true renamed App.ByName "Alpha"
    = Ok [ mkRow (Some "T1"%string) (Some "Alpha Bank"%string) 2021 (Some 70%Q) (Some 9%Q);
           mkRow (Some "T2"%string) (Some "Alpha Tech"%string) 2020 (Some 55%Q) (Some 7%Q);
           mkRow (Some "T1"%string) (Some "Alpha Bank"%string) 2019 (Some 60%Q) (Some 5%Q) ] /\
  App.target_company renamed (Some "T1"%string)
    = [ mkRow (Some "T1"%string) (Some "Alpha Bank"%string) 2019 (Some 60%Q) (Some 5%Q);
        mkRow (Some "T1"%string) (Some "Alpha Bank"%string) 2021 (Some 70%Q) (Some 9%Q);
        mkRow (Some "T1"%string) (Some "Delta Bank"%string) 2022 (Some 75%Q) (Some 11%Q) ] /\
  exists delta chart,
    App.render (fun _ => None) true renamed (App.market_avg renamed)
      (App.mkInputs App.ByName "Alpha" (2010, 2022))
    = (page_head App.ByName renamed ++
       [ App.subheader (Some "Delta Bank"%string) (Some "T1"%string);
         App.card_index (Some 75%Q) delta;
         App.card_rank 1 100;
         App.card_freq 11;
         App.card_year 2022;
         App.rule;
         App.tabs chart ],
       Ok tt).
Proof.
  split; [reflexivity|]. split; [reflexivity|].
  eexists. eexists. vm_compute. reflexivity.
Qed.

(** C6, the claim as stated fails: the by-name query "Alpha" finds the
    first row of [without_code], whose code cell is empty; the series of
    that code is empty, it does not hold the row found, and the page shows
    the warning that the company has no data in the selected years. *)
Lemma first_match_without_code_has_no_series :
  App.matches (fun _ => None) true without_code App.ByName "Alpha"
    = Ok [mkRow None (Some "Alpha"%string) 2020 (Some 80%Q) (Some 10%Q)] /\
  App.target_company without_code None = [] /\
  App.render (fun _ => None) true without_code (App.market_avg without_code)
    (App.mkInputs App.ByName "Alpha" (2010, 2020))
  = (page_head App.ByName without_code ++ [App.warning_no_data 2010 2020], Ok tt).
Proof. repeat split. Qed.

(** C2.  No name of [marked_names] equals the query "*ST" and one name
    contains it, but the search raises: the query is compiled as a regular
    expression, in which "*" has nothing to repeat, whatever the rest of
    the pattern language does. *)
Theorem pattern_query_is_not_containment :
  filter (App.name_is "*ST") marked_names = [] /\
  filter (fun r => match name r with
                   | Some s => Re.is_substring "*ST" s
                   | None => false
                   end) marked_names
    = [mkRow (Some "600401"%string) (Some "*ST HR"%string) 2015 (Some 20%Q) (Some 3%Q)] /\
  (forall re_other,
     App.matches re_other true marked_names App.ByName "*ST" = Raise ReError) /\
  (forall re_other sel,
     App.render re_other true marked_names (App.market_avg marked_names)
       (App.mkInputs App.ByName "*ST" sel)
     = (page_head App.ByName marked_names, Raise ReError)).
Proof.
  split; [reflexivity|]. split; [reflexivity|]. split.
  - intros re_other. now apply matches_nothing_to_repeat.
  - intros re_other sel. rewrite render_with_rows by discriminate.
    unfold App.content. cbn [App.query App.mode].
    rewrite matches_nothing_to_repeat by reflexivity.
    cbn [App.rbind App.lift fst snd]. now rewrite app_nil_r.
Qed.

(** ** The loader and its cache *)

Section CacheFacts.

Variable parse_number : string -> number.
Variable re_other : string -> option (string -> bool).

Let load_data := App.load_data parse_number.
Let main := App.main parse_number re_other.

Lemma load_data_hit w r msgs :
  App.cache w = Some (r, msgs) ->
  load_data w = (r, App.mkWorld (App.file w) (App.cache w)
                      (App.screen w ++ msgs) (App.attempts w)).
Proof. unfold load_data, App.load_data. now intros ->. Qed.

Lemma load_data_fills_cache w :
  exists msgs, App.cache (snd (load_data w)) = Some (fst (load_data w), msgs).
Proof.
  unfold load_data, App.load_data.
  destruct (App.cache w) as [[r msgs]|] eqn:E.
  - simpl. eauto.
  - destruct (App.load_data_body parse_number (App.file w)) as [r msgs].
    simpl. eauto.
Qed.

End CacheFacts.

(** C4 (as amended).  A missing file and a file that cannot be parsed make
    [load_data] return the same value, the pair of None; the caller sees no
    difference and shows the same "file not found" error for both.  They
    differ only in what the loader itself shows before it returns: nothing
    for a missing file, a "load failed" error with the cause for a file
    that cannot be parsed. *)
Theorem load_failures_return_the_same_value
  (parse_number : string -> number)
  (re_other : string -> option (string -> bool))
  (e : string) (shown : list App.ui) (n : nat) (inp : App.Inputs) :
  let missing := App.mkWorld None None shown n in
  let broken := App.mkWorld (Some (App.Unparsable e)) None shown n in
  fst (App.load_data parse_number missing) = None /\
  fst (App.load_data parse_number broken) = None /\
  App.screen (snd (App.load_data parse_number missing)) = shown /\
  App.screen (snd (App.load_data parse_number broken))
    = shown ++ [App.error_load_failed e] /\
  App.screen (fst (App.main parse_number re_other inp missing))
    = shown ++ [App.error_file_not_found] /\
  App.screen (fst (App.main parse_number re_other inp broken))
    = shown ++ [App.error_load_failed e; App.error_file_not_found] /\
  snd (App.main parse_number re_other inp missing) = Ok tt /\
  snd (App.main parse_number re_other inp broken) = Ok tt.
Proof.
  cbv zeta. unfold App.main, App.load_data. simpl.
  rewrite app_nil_r, <- app_assoc. simpl. repeat split.
Qed.

(** C4, the claim as stated fails: the value returned for a missing file
    and for a file with a broken header is the same. *)
Lemma not_found_is_returned_like_parse_error :
  (forall parse_number,
     fst (App.load_data parse_number (fresh None)) = None /\
     fst (App.load_data parse_number
            (fresh (Some (App.Unparsable "missing column")))) = None) /\
  (forall parse_number re_other inp,
     App.screen (fst (App.main parse_number re_other inp
                        (fresh (Some (App.Unparsable "missing column")))))
     = [App.error_load_failed "missing column"; App.error_file_not_found]).
Proof. split; intros; [split|]; reflexivity. Qed.

(** C5 (as amended).  What a call of [load_data] returns is stored, a
    failure like a success: every later call in the process returns that
    value, shows the stored messages again and does not run the body, so the
    file is not looked at again, whatever has become of it. *)
Theorem load_result_is_cached
  (parse_number : string -> number) (w : App.World)
  (f' : option App.file_content) :
  let first := App.load_data parse_number w in
  let second := App.load_data parse_number (with_file (snd first) f') in
  fst second = fst first /\
  App.attempts (snd second) = App.attempts (snd first) /\
  App.cache (snd second) = App.cache (snd first) /\
  (fst first = None -> fst second = None).
Proof.
  cbv zeta.
  destruct (load_data_fills_cache parse_number w) as [msgs Hc].
  set (first := App.load_data parse_number w) in *.
  assert (H : App.cache (with_file (snd first) f') = Some (fst first, msgs))
    by exact Hc.
  rewrite (load_data_hit parse_number _ _ _ H). simpl.
  repeat split; auto.
Qed.

(** C5, the claim as stated fails: the file is missing at the first call
    and in place, well formed, at the second; the second call still returns
    the failure and the body has run once. *)
Lemma failed_load_is_not_retried :
  (forall parse_number,
     let first := App.load_data parse_number (fresh None) in
     let second :=
       App.load_data parse_number (with_file (snd first) (Some good_file)) in
     fst first = None /\
     fst second = None /\
     App.attempts (snd second) = 1%nat) /\
  (forall parse_number,
     fst (App.load_data_body parse_number (Some good_file)) <> None).
Proof.
  split; intros; [repeat split | discriminate].
Qed.

(** ** The percentile *)

(** C9.  The example of the claim holds: rank 2 of 2 gives 100.  The
    formula does not hold for every rank: for the company that ranks 29th
    of 100 the program computes 29.0 / 100 * 100 in double precision, which
    is just below 29, and [int] makes it 28, where the floor of
    29 / 100 * 100 is 29. *)
Theorem top_percent_29_of_100 :
  App.top_percent 2 2 = Ok 100 /\
  option_map (fun m => (App.my_rank m, App.total_comps m))
    (App.metrics (market 100) (App.filtered_company (market 100) (Some "T29"%string) (2010, 2023))
       (Some "T29"%string))
    = Some (App.RankNum 29, 100) /\
  App.top_percent 29 100 = Ok 28 /\
  Qfloor (inject_Z 29 / inject_Z 100 * 100) = 29 /\
  (forall parse_number re_other,
     rank_cards (App.screen (fst (App.main parse_number re_other
                   (App.mkInputs App.ByCode "T29" (2010, 2023))
                   (fresh (file_of (market 100))))))
     = [(29, 28)]).
Proof. vm_compute. repeat split. Qed.

(** The scenario of the specification, on the page: T1 over 2020-2021 is
    shown the rank 2 and "Top 100%". *)
Example scenario_page :
  forall parse_number re_other,
    rank_cards (App.screen (fst (App.main parse_number re_other
                  (App.mkInputs App.ByCode "T1" (2020, 2021))
                  (fresh (file_of scenario)))))
    = [(2, 100)].
Proof. intros. vm_compute. reflexivity. Qed.

(** * Further properties of the program *)

(** ** The bounds of the year slider *)

Lemma fold_min_spec (ys : list Z) : forall y,
  let m := fold_left Z.min ys y in
  In m (y :: ys) /\ Forall (fun z => m <= z) (y :: ys).
Proof.
  induction ys as [|a ys IH]; intros y; cbn [fold_left].
  - split; [now left | constructor; [lia | constructor]].
  - destruct (IH (Z.min y a)) as [Hin Hall]. cbv zeta in *.
    set (m := fold_left Z.min ys (Z.min y a)) in *.
    inversion Hall as [|? ? Hm Hrest]; subst.
    split.
    + destruct Hin as [E | Hin]; [|right; right; exact Hin].
      destruct (Z.min_spec y a) as [[_ E'] | [_ E']]; rewrite E' in E.
      * now left.
      * right; left; exact E.
    + constructor; [lia|]. constructor; [lia | exact Hrest].
Qed.

Lemma fold_max_spec (ys : list Z) : forall y,
  let m := fold_left Z.max ys y in
  In m (y :: ys) /\ Forall (fun z => z <= m) (y :: ys).
Proof.
  induction ys as [|a ys IH]; intros y; cbn [fold_left].
  - split; [now left | constructor; [lia | constructor]].
  - destruct (IH (Z.max y a)) as [Hin Hall]. cbv zeta in *.
    set (m := fold_left Z.max ys (Z.max y a)) in *.
    inversion Hall as [|? ? Hm Hrest]; subst.
    split.
    + destruct Hin as [E | Hin]; [|right; right; exact Hin].
      destruct (Z.max_spec y a) as [[_ E'] | [_ E']]; rewrite E' in E.
      * right; left; exact E.
      * now left.
    + constructor; [lia|]. constructor; [lia | exact Hrest].
Qed.

(** X1.  On a Dataset with at least one row, [min_year] and [max_year]
    are computed without an exception, each is the year of some row, and
    the year of every row lies between them. *)
Theorem year_bounds_cover_the_dataset (df : list Row) :
  df <> [] ->
  exists lo hi : Z,
    App.year_bound Z.min df = Ok lo /\
    App.year_bound Z.max df = Ok hi /\
    In lo (map year df) /\ In hi (map year df) /\
    forall r, In r df -> lo <= year r <= hi.
Proof.
  intros Hne. unfold App.year_bound.
  destruct df as [|r0 df]; [contradiction|]. cbn [map].
  destruct (fold_min_spec (map year df) (year r0)) as [Hlo Hall_lo].
  destruct (fold_max_spec (map year df) (year r0)) as [Hhi Hall_hi].
  cbv zeta in *.
  exists (fold_left Z.min (map year df) (year r0)),
         (fold_left Z.max (map year df) (year r0)).
  repeat split; try assumption.
  - rewrite Forall_forall in Hall_lo. apply Hall_lo.
    change (In (year r) (map year (r0 :: df))). now apply in_map.
  - rewrite Forall_forall in Hall_hi. apply Hall_hi.
    change (In (year r) (map year (r0 :: df))). now apply in_map.
Qed.

Lemma year_bounds_cover_the_dataset_witness :
  exists lo hi : Z,
    App.year_bound Z.min scenario = Ok lo /\
    App.year_bound Z.max scenario = Ok hi /\
    In lo (map year scenario) /\ In hi (map year scenario) /\
    forall r, In r scenario -> lo <= year r <= hi.
Proof.
  apply (year_bounds_cover_the_dataset scenario). discriminate.
Defined.

(** ** A file without a usable row *)

Lemma clean_nothing_parsed parse_number rows :
  Forall (fun raw => App.parsed_year parse_number raw = false) rows ->
  App.clean parse_number rows = Ok [].
Proof.
  induction 1 as [|raw rows Hraw _ IH]; simpl; [reflexivity|].
  now rewrite Hraw.
Qed.

(** X2.  When nothing is in the cache yet, a file with rows whose years
    are all text or missing is loaded as a success, with an empty Dataset
    and no market average; [main] then raises ValueError on the minimum of
    the years (line 124), whatever the inputs: the page has the title of
    the sidebar, the rule, the radio and the text input, and nothing
    else. *)
Theorem no_usable_row_breaks_the_page
  (parse_number : string -> number)
  (re_other : string -> option (string -> bool))
  (rows : list RawRow) (shown : list App.ui) (n : nat) (inp : App.Inputs) :
  rows <> [] ->
  Forall (fun raw => App.parsed_year parse_number raw = false) rows ->
  let w := App.mkWorld (Some (App.Table rows)) None shown n in
  fst (App.load_data parse_number w) = Some (App.names_are_text rows, [], []) /\
  snd (App.main parse_number re_other inp w) = Raise ValueError /\
  App.screen (fst (App.main parse_number re_other inp w))
    = shown ++ [App.sidebar_title; App.rule; App.radio_search_mode;
                App.text_input (App.mode inp)].
Proof.
  intros _ Hrows. cbv zeta.
  unfold App.main, App.load_data, App.load_data_body. cbn [App.cache App.file].
  rewrite (clean_nothing_parsed _ _ Hrows).
  cbn [fst snd App.market_avg groupby_year fold_right map].
  rewrite render_without_rows. cbn. rewrite !app_nil_r. repeat split.
Qed.

Lemma no_usable_row_breaks_the_page_witness :
  let rows := [ mkRaw (Some "000001"%string) (Some "PAB"%string) CNaN
                      (Some 50%Q) (Some 12%Q);
                mkRaw (Some "000002"%string) (Some "VKA"%string) (CStr "n/a")
                      (Some 40%Q) (Some 8%Q) ] in
  let w := App.mkWorld (Some (App.Table rows)) None [] 0 in
  let inp := App.mkInputs App.ByName "PAB" (2010, 2023) in
  fst (App.load_data (fun _ => NaN) w) = Some (true, [], []) /\
  snd (App.main (fun _ => NaN) (fun _ => None) inp w) = Raise ValueError /\
  App.screen (fst (App.main (fun _ => NaN) (fun _ => None) inp w))
    = [App.sidebar_title; App.rule; App.radio_search_mode;
       App.text_input App.ByName].
Proof.
  apply (no_usable_row_breaks_the_page (fun _ => NaN) (fun _ => None)
           [ mkRaw (Some "000001"%string) (Some "PAB"%string) CNaN
                   (Some 50%Q) (Some 12%Q);
             mkRaw (Some "000002"%string) (Some "VKA"%string) (CStr "n/a")
                   (Some 40%Q) (Some 8%Q) ]
           [] 0%nat (App.mkInputs App.ByName "PAB" (2010, 2023))).
  - discriminate.
  - repeat constructor.
Defined.

(** ** The resolver, further *)

Lemma filter_perm {A : Type} (p : A -> bool) (l l' : list A) :
  Permutation l l' -> Permutation (filter p l) (filter p l').
Proof.
  induction 1 as [|x l l' _ IH|x y l|l l' l'' _ IH1 _ IH2]; simpl.
  - constructor.
  - destruct (p x); [now constructor | assumption].
  - destruct (p x), (p y); try reflexivity. apply perm_swap.
  - now transitivity (filter p l').
Qed.

(** X3.  A by-code query never raises, whatever characters it holds; the
    rows found are exactly the rows of the Dataset whose code is the query,
    character for character; and when there are some, the series resolved
    is made of the rows found and no other. *)
Theorem by_code_is_exact_match
  (re_other : string -> option (string -> bool)) (text_names : bool)
  (df : list Row) (q : string) :
  exists found : list Row,
    App.matches re_other text_names df App.ByCode q = Ok found /\
    (forall r, In r found <-> In r df /\ code r = Some q) /\
    (forall first, hd_error found = Some first ->
       code first = Some q /\
       Permutation found (App.target_company df (code first))).
Proof.
  exists (filter (App.code_is q) df). split; [reflexivity|].
  assert (Hin : forall r, In r (filter (App.code_is q) df)
                          <-> In r df /\ code r = Some q).
  { intros r. rewrite filter_In. now rewrite code_is_spec. }
  split; [exact Hin|].
  intros first Hhd.
  assert (Hf : In first (filter (App.code_is q) df)).
  { destruct (filter (App.code_is q) df); [discriminate|].
    injection Hhd as ->. now left. }
  apply Hin in Hf. destruct Hf as [_ Hc]. split; [exact Hc|].
  rewrite Hc. apply (target_company_perm df (Some q)).
Qed.

(** X18.  The two steps of a by-name search.  The query is first compared for
    equality with the name of every row; if some name is equal, the rows
    found are the rows with an equal name and nothing else is looked at.
    Only if none is equal is the query searched in the names, as a pattern:
    on a name column that is not text this raises AttributeError; on a text
    column and for a query with no special character of regular
    expressions, the rows found are the rows whose name contains the
    query. *)
Theorem by_name_exact_then_pattern
  (re_other : string -> option (string -> bool)) (text_names : bool)
  (df : list Row) (q : string) :
  let exact := filter (App.name_is q) df in
  (forall r, In r exact <-> In r df /\ name r = Some q) /\
  (exact <> [] -> App.matches re_other text_names df App.ByName q = Ok exact) /\
  (exact = [] -> text_names = false ->
   App.matches re_other text_names df App.ByName q = Raise AttributeError) /\
  (exact = [] -> text_names = true -> Re.literal q = true ->
   exists found,
     App.matches re_other text_names df App.ByName q = Ok found /\
     found = filter (fun r => match name r with
                              | Some s => Re.is_substring q s
                              | None => false
                              end) df /\
     forall r, In r found <->
               In r df /\ exists s a b, name r = Some s /\ s = (a ++ q ++ b)%string).
Proof.
  cbv zeta. split; [|split; [|split]].
  - intros r. rewrite filter_In. unfold App.name_is.
    destruct (name r) as [s|].
    + rewrite String.eqb_eq. split; intros [H1 H2]; split; congruence.
    + split; intros [H1 H2]; discriminate.
  - apply matches_exact.
  - intros He ->. now apply matches_not_text.
  - intros He -> Hl. eexists. split; [now apply matches_literal|].
    split; [reflexivity|].
    intros r. rewrite filter_In. destruct (name r) as [s|].
    + rewrite is_substring_spec. split.
      * intros (Hin & a & b & E). split; [assumption|]. exists s, a, b; auto.
      * intros (Hin & s' & a & b & [= <-] & E). split; [assumption|]. eauto.
    + split; [intros [_ H]; discriminate | intros (_ & s & a & b & H & _); discriminate].
Qed.

Lemma by_name_exact_then_pattern_witness :
  App.matches (fun _ => None) true scenario App.ByName "Alpha"
    = Ok (filter (App.name_is "Alpha") scenario) /\
  App.matches (fun _ => None) false unnamed App.ByName "PAB"
    = Raise AttributeError /\
  exists found,
    App.matches (fun _ => None) true renamed App.ByName "Alpha" = Ok found /\
    found = filter (fun r => match name r with
                             | Some s => Re.is_substring "Alpha" s
                             | None => false
                             end) renamed /\
    forall r, In r found <->
              In r renamed /\
              exists s a b, name r = Some s /\ s = (a ++ "Alpha" ++ b)%string.
Proof.
  split; [|split].
  - apply (proj1 (proj2 (by_name_exact_then_pattern (fun _ => None) true
                           scenario "Alpha"))).
    vm_compute. discriminate.
  - apply (proj1 (proj2 (proj2 (by_name_exact_then_pattern (fun _ => None) false
                                  unnamed "PAB"))));
      reflexivity.
  - apply (proj2 (proj2 (proj2 (by_name_exact_then_pattern (fun _ => None) true
                                  renamed "Alpha"))));
      reflexivity.
Defined.

(** X5.  The year filter keeps both ends of the selected range: a row is
    in the filtered series exactly when it is a row of the Dataset with the
    resolved code (a code, not an empty cell) and a year from the lower end
    to the upper end, both included; the filtered series has each such row
    as many times as the Dataset, in ascending order of the year. *)
Theorem year_filter_is_inclusive
  (df : list Row) (first_code : option string) (lo hi : Z) :
  let series := App.filtered_company df first_code (lo, hi) in
  (forall r, In r series <->
             In r df /\ (first_code <> None /\ code r = first_code) /\
             lo <= year r <= hi) /\
  Permutation
    (filter (fun r => App.same_code first_code r && App.in_years (lo, hi) r) df)
    series /\
  StronglySorted by_year series.
Proof.
  cbv zeta. split; [|split].
  - intros r. apply (filtered_company_In df first_code (lo, hi) r).
  - unfold App.filtered_company. rewrite <- filter_filter.
    apply filter_perm. apply target_company_perm.
  - apply filtered_company_sorted.
Qed.

(** ** The market average, further *)

Lemma add_to_group_keeps_keys r gs k :
  k = year r \/ In k (map fst gs) -> In k (map fst (add_to_group r gs)).
Proof.
  induction gs as [|[y g] gs IH]; simpl.
  - intros [-> | []]. now left.
  - destruct (year r =? y) eqn:E1.
    + apply Z.eqb_eq in E1. simpl. intros [-> | [<- | H]]; auto.
    + destruct (year r <? y) eqn:E2; simpl.
      * intros [-> | [<- | H]]; auto.
      * intros [-> | [<- | H]]; auto.
Qed.

Lemma groupby_year_keys df k :
  In k (map fst (groupby_year df)) <-> In k (map year df).
Proof.
  unfold groupby_year.
  assert (H : forall gs,
    In k (map fst (fold_left (fun gs r => add_to_group r gs) df gs)) <->
    In k (map fst gs) \/ In k (map year df)).
  { induction df as [|r df IH]; intros gs; simpl; [tauto|].
    rewrite IH. split.
    - intros [H | H]; [|tauto].
      destruct (add_to_group_keys _ _ _ H); [subst|]; tauto.
    - intros [H | [H | H]]; [| |tauto]; left; apply add_to_group_keeps_keys; auto. }
  rewrite H. simpl. tauto.
Qed.

Lemma market_avg_years df :
  map avg_year (App.market_avg df) = map fst (groupby_year df).
Proof. unfold App.market_avg. rewrite map_map. reflexivity. Qed.

(** X6.  [market_avg] has one row per year of the Dataset and for no other
    year, in strictly ascending order of the year. *)
Theorem market_avg_years_are_the_dataset_years (df : list Row) :
  StronglySorted Z.lt (map avg_year (App.market_avg df)) /\
  (forall y, In y (map avg_year (App.market_avg df)) <-> In y (map year df)) /\
  (List.length (App.market_avg df) <= List.length df)%nat.
Proof.
  rewrite market_avg_years. split; [apply groupby_year_sorted|].
  split; [intros y; apply groupby_year_keys|].
  unfold App.market_avg. rewrite length_map.
  assert (Hnd : NoDup (map fst (groupby_year df))).
  { pose proof (groupby_year_sorted df) as Hs. unfold keys_sorted in Hs.
    induction Hs as [|k ks Hs IH Hall]; constructor; [|assumption].
    intros Hin. rewrite Forall_forall in Hall. specialize (Hall k Hin). lia. }
  rewrite <- (length_map fst (groupby_year df)), <- (length_map year df).
  apply NoDup_incl_length; [assumption|].
  intros k Hk. now apply groupby_year_keys.
Qed.

(** ** The join with the market averages *)

Lemma market_avg_row df y :
  In y (map year df) ->
  filter (fun a => avg_year a =? y) (App.market_avg df) =
  [mkAvg y (mean (map index (filter (fun r => year r =? y) df)))
           (mean (map freq (filter (fun r => year r =? y) df)))].
Proof.
  intros Hy.
  assert (Hk : In y (map fst (groupby_year df))) by now apply groupby_year_keys.
  pose proof (groupby_year_group df y) as Hg.
  pose proof (filter_key_unique (groupby_year df) y (groupby_year_sorted df)) as Hf.
  unfold group_of in Hg.
  destruct (find (fun p => fst p =? y) (groupby_year df)) as [[k g]|] eqn:F.
  - simpl in Hg. subst g.
    apply find_some in F. destruct F as [_ E]. simpl in E.
    apply Z.eqb_eq in E. subst k.
    unfold App.market_avg.
    induction (groupby_year df) as [|a gs IH]; [discriminate|].
    simpl in *. destruct (fst a =? y) eqn:E.
    + injection Hf as Ha Hrest. subst a. simpl. f_equal.
      clear - Hrest. induction gs as [|b gs IH]; [reflexivity|].
      simpl in *. destruct (fst b =? y); [discriminate | now apply IH].
    + apply IH; [|assumption].
      destruct Hk as [Hk | Hk]; [apply Z.eqb_neq in E; contradiction | assumption].
  - exfalso. apply in_map_iff in Hk. destruct Hk as ([k g] & Ek & Hin).
    simpl in Ek. subst k.
    apply (find_none _ _ F) in Hin. simpl in Hin.
    rewrite Z.eqb_refl in Hin. discriminate.
Qed.

Lemma find_is_first_filtered {A : Type} (p : A -> bool) (l : list A) :
  find p l = hd_error (filter p l).
Proof.
  induction l as [|a l IH]; simpl; [reflexivity|].
  destruct (p a); [reflexivity | assumption].
Qed.

(** X7.  The chart data joins the filtered series with the market averages
    of the same Dataset: it has one entry per row of the series, in the
    order of the series, and each row stands beside the average of its own
    year, which is never missing; pandas' left join gives the same table. *)
Theorem chart_data_has_every_market_average
  (df : list Row) (first_code : option string) (sel : Z * Z) :
  let series := App.filtered_company df first_code sel in
  let chart_df := App.merge_left series (App.market_avg df) in
  View.pd_merge_left series (App.market_avg df) = chart_df /\
  map fst chart_df = series /\
  Forall (fun p =>
            snd p =
            Some (mkAvg (year (fst p))
                    (mean (map index (filter (fun r => year r =? year (fst p)) df)))
                    (mean (map freq (filter (fun r => year r =? year (fst p)) df)))))
         chart_df.
Proof.
  cbv zeta.
  assert (Hin : forall r, In r (App.filtered_company df first_code sel) ->
                          In (year r) (map year df)).
  { intros r Hr. apply filtered_company_In in Hr. apply in_map. tauto. }
  induction (App.filtered_company df first_code sel) as [|r l IH]; simpl.
  - repeat split; constructor.
  - destruct IH as (IH1 & IH2 & IH3); [intros; apply Hin; now right|].
    pose proof (market_avg_row df (year r) (Hin r (or_introl eq_refl))) as Hrow.
    rewrite find_is_first_filtered, Hrow. simpl.
    split; [now rewrite IH1|]. split; [now rewrite IH2|].
    constructor; [reflexivity | exact IH3].
Qed.

(** ** What the page shows when there is no dashboard *)

(** X8.  With an empty query and a file that loads with at least one row,
    [main] completes without an exception whatever the search mode and the
    selected years; below the sidebar, the title and the line of the data
    source it shows the prompt to enter a query, the heading of the
    overview and the overview chart of the market averages of the whole
    Dataset, and nothing else, and the loaded Dataset is in the cache
    afterwards. *)
Theorem empty_query_shows_the_market_overview
  (parse_number : string -> number)
  (re_other : string -> option (string -> bool))
  (rows : list RawRow) (df : list Row) (m : App.search_mode) (sel : Z * Z)
  (shown : list App.ui) (n : nat) :
  App.clean parse_number rows = Ok df ->
  df <> [] ->
  App.main parse_number re_other (App.mkInputs m EmptyString sel)
    (App.mkWorld (Some (App.Table rows)) None shown n)
  = (App.mkWorld (Some (App.Table rows))
       (Some (Some (App.names_are_text rows, df, App.market_avg df), []))
       (shown ++ page_head m df ++
        [App.info_enter_query; App.subheader_overview;
         App.overview_chart (App.market_avg df)])
       (S n),
     Ok tt).
Proof.
  intros Hdf Hne.
  unfold App.main, App.load_data, App.load_data_body.
  cbn [App.cache App.file]. rewrite Hdf.
  rewrite (render_with_rows re_other _ _ _ _ Hne).
  cbn [App.content App.query App.mode String.eqb App.rbind App.show fst snd
       App.file App.cache App.screen App.attempts app].
  now rewrite app_nil_r.
Qed.

Lemma empty_query_shows_the_market_overview_witness :
  App.main (fun _ => NaN) (fun _ => None)
    (App.mkInputs App.ByName EmptyString (2010, 2021))
    (App.mkWorld (Some (App.Table (map raw_of_row scenario))) None [] 0)
  = (App.mkWorld (Some (App.Table (map raw_of_row scenario)))
       (Some (Some (App.names_are_text (map raw_of_row scenario), scenario,
                    App.market_avg scenario), []))
       ([] ++ page_head App.ByName scenario ++
        [App.info_enter_query; App.subheader_overview;
         App.overview_chart (App.market_avg scenario)])
       1,
     Ok tt).
Proof.
  apply (empty_query_shows_the_market_overview (fun _ => NaN) (fun _ => None)
           (map raw_of_row scenario) scenario App.ByName (2010, 2021) [] 0%nat).
  - reflexivity.
  - discriminate.
Defined.

(** X9.  On a Dataset that has rows and for a query that is not empty,
    the page without a dashboard is one of three; each has the sidebar, the
    title and the line of the data source, and after them: when the search
    raises, nothing, and the exception escapes; when it finds no row, the
    "no match" note and nothing else; when the code of the first row found
    has no row in the selected years, the warning with the two ends of the
    selection and nothing else.  The last two complete without an
    exception. *)
Theorem no_match_and_empty_range_are_told_apart
  (re_other : string -> option (string -> bool)) (text_names : bool)
  (df : list Row) (avg : list AvgRow) (inp : App.Inputs) :
  df <> [] ->
  App.query inp <> EmptyString ->
  let found := App.matches re_other text_names df (App.mode inp) (App.query inp) in
  let page := App.render re_other text_names df avg inp in
  (forall e, found = Raise e -> page = (page_head (App.mode inp) df, Raise e)) /\
  (found = Ok [] ->
   page = (page_head (App.mode inp) df ++ [App.info_no_match], Ok tt)) /\
  (forall first rest,
     found = Ok (first :: rest) ->
     App.filtered_company df (code first) (App.selected_years inp) = [] ->
     page = (page_head (App.mode inp) df ++
             [App.warning_no_data (fst (App.selected_years inp))
                                  (snd (App.selected_years inp))], Ok tt)).
Proof.
  intros Hne Hq found page. subst found page.
  assert (E : String.eqb (App.query inp) EmptyString = false)
    by now apply String.eqb_neq.
  rewrite (render_with_rows re_other text_names df avg inp Hne).
  unfold App.content. rewrite E.
  split; [|split].
  - intros e ->. cbn. now rewrite app_nil_r.
  - intros ->. reflexivity.
  - intros first rest -> Hf. rewrite rbind_lift_ok, Hf. reflexivity.
Qed.

Lemma no_match_and_empty_range_are_told_apart_witness :
  App.render (fun _ => None) true marked_names (App.market_avg marked_names)
    (App.mkInputs App.ByName "*ST" (2010, 2015))
    = (page_head App.ByName marked_names, Raise ReError) /\
  App.render (fun _ => None) true scenario (App.market_avg scenario)
    (App.mkInputs App.ByCode "T9" (2010, 2021))
    = (page_head App.ByCode scenario ++ [App.info_no_match], Ok tt) /\
  App.render (fun _ => None) true scenario (App.market_avg scenario)
    (App.mkInputs App.ByCode "T2" (2010, 2020))
    = (page_head App.ByCode scenario ++ [App.warning_no_data 2010 2020], Ok tt).
Proof.
  split; [|split].
  - apply (proj1 (no_match_and_empty_range_are_told_apart (fun _ => None) true
             marked_names (App.market_avg marked_names)
             (App.mkInputs App.ByName "*ST" (2010, 2015))
             ltac:(discriminate) ltac:(discriminate))).
    reflexivity.
  - apply (proj1 (proj2 (no_match_and_empty_range_are_told_apart (fun _ => None) true
             scenario (App.market_avg scenario)
             (App.mkInputs App.ByCode "T9" (2010, 2021))
             ltac:(discriminate) ltac:(discriminate)))).
    reflexivity.
  - apply (proj2 (proj2 (no_match_and_empty_range_are_told_apart (fun _ => None) true
             scenario (App.market_avg scenario)
             (App.mkInputs App.ByCode "T2" (2010, 2020))
             ltac:(discriminate) ltac:(discriminate)))
             (mkRow (Some "T2"%string) (Some "Beta"%string) 2021 (Some 90%Q) (Some 30%Q))
             []);
      reflexivity.
Defined.

(** X10.  When the latest record of the filtered series has no total
    keyword frequency, the dashboard is never completed: [main]'s rendering
    ends in an exception and shows neither the frequency card, nor the year
    card, nor the tabs.  If the rank and the percentile convert, the
    exception is the ValueError of [int] on the missing frequency, raised
    after the header, the index card and the rank card were shown. *)
Theorem missing_frequency_stops_the_dashboard
  (re_other : string -> option (string -> bool)) (text_names : bool)
  (df : list Row) (avg : list AvgRow) (inp : App.Inputs)
  (first : Row) (rest : list Row) (m : App.Metrics) :
  df <> [] ->
  App.query inp <> EmptyString ->
  App.matches re_other text_names df (App.mode inp) (App.query inp)
    = Ok (first :: rest) ->
  App.metrics df (App.filtered_company df (code first) (App.selected_years inp))
    (code first) = Some m ->
  App.latest_freq m = None ->
  let page := App.render re_other text_names df avg inp in
  (exists e, snd page = Raise e) /\
  existsb after_rank_card (fst page) = false /\
  (forall r t,
     App.my_rank m = App.RankNum r ->
     App.top_percent r (App.total_comps m) = Ok t ->
     page = (page_head (App.mode inp) df ++
             [App.subheader (App.company_name m) (App.stock_code m);
              App.card_index (App.latest_idx m) (App.idx_delta m);
              App.card_rank r t],
             Raise ValueError)).
Proof.
  intros Hne Hq Hm Hmet Hfreq page. subst page.
  rewrite (render_with_rows re_other text_names df avg inp Hne).
  rewrite (content_of_found _ _ _ _ _ first rest Hq Hm).
  unfold App.dashboard. rewrite Hmet, Hfreq.
  cbn [fst snd]. rewrite existsb_app, (page_head_plain _ _ Hne).
  destruct (App.my_rank m) as [r| |]; cbn.
  - destruct (App.top_percent r (App.total_comps m)) as [t|e] eqn:T; cbn.
    + split; [eauto|]. split; [reflexivity|].
      intros r' t' [= <-] Ht. rewrite T in Ht. injection Ht as <-. reflexivity.
    + split; [eauto|]. split; [reflexivity|].
      intros r' t' [= <-] Ht. rewrite T in Ht. discriminate.
  - split; [eauto|]. split; [reflexivity|]. intros r t [=].
  - split; [eauto|]. split; [reflexivity|]. intros r t [=].
Qed.

Lemma missing_frequency_stops_the_dashboard_witness :
  (exists e,
     snd (App.render (fun _ => None) true without_frequency
            (App.market_avg without_frequency)
            (App.mkInputs App.ByCode "000001" (2010, 2020)))
     = Raise e) /\
  existsb after_rank_card
    (fst (App.render (fun _ => None) true without_frequency
            (App.market_avg without_frequency)
            (App.mkInputs App.ByCode "000001" (2010, 2020)))) = false.
Proof.
  refine (let H := missing_frequency_stops_the_dashboard (fun _ => None) true
            without_frequency (App.market_avg without_frequency)
            (App.mkInputs App.ByCode "000001" (2010, 2020))
            (mkRow (Some "000001"%string) (Some "PAB"%string) 2020 (Some 50%Q) None)
            [] _ _ _ _ eq_refl eq_refl in
          conj (proj1 H) (proj1 (proj2 H))); try reflexivity; discriminate.
Defined.

(** ** The order of the ranks *)

Lemma filter_length_incl {A : Type} (p q : A -> bool) (l : list A) :
  (forall a, p a = true -> q a = true) ->
  (List.length (filter p l) <= List.length (filter q l))%nat.
Proof.
  intros H. induction l as [|a l IH]; simpl; [lia|].
  destruct (p a) eqn:Ep.
  - rewrite (H a Ep). simpl. lia.
  - destruct (q a); simpl; lia.
Qed.

Lemma filter_length_strict {A : Type} (p q : A -> bool) (l : list A) (x : A) :
  (forall a, p a = true -> q a = true) ->
  In x l -> p x = false -> q x = true ->
  (List.length (filter p l) < List.length (filter q l))%nat.
Proof.
  intros H. induction l as [|a l IH]; simpl; [contradiction|].
  intros [-> | Hin] Hp Hq.
  - rewrite Hp, Hq. simpl. pose proof (filter_length_incl p q l H). lia.
  - specialize (IH Hin Hp Hq). destruct (p a) eqn:Ep.
    + rewrite (H a Ep). simpl. lia.
    + destruct (q a); simpl; lia.
Qed.

(** X11.  Within one year the ranks follow the indexes: of two codes whose
    rank rows have an index, the one with the higher index never has the
    worse rank, a strictly higher index has a strictly better rank, and
    equal indexes have the same rank. *)
Theorem ranks_follow_the_indexes
  (df : list Row) (yr : Z) (c1 c2 : option string) (r1 r2 : Row) (v1 v2 : Q) :
  find (key_is yr c1) df = Some r1 ->
  find (key_is yr c2) df = Some r2 ->
  index r1 = Some v1 ->
  index r2 = Some v2 ->
  (v1 <= v2)%Q ->
  exists k1 k2 : Z,
    App.market_rank df yr c1 = App.RankNum k1 /\
    App.market_rank df yr c2 = App.RankNum k2 /\
    k2 <= k1 /\
    ((v1 < v2)%Q -> k2 < k1) /\
    ((v1 == v2)%Q -> k1 = k2).
Proof.
  intros F1 F2 I1 I2 Hle.
  destruct (market_rank_found df c1 yr r1 F1) as (Hin1 & _ & Hy1 & R1).
  destruct (market_rank_found df c2 yr r2 F2) as (Hin2 & _ & Hy2 & R2).
  rewrite I1 in R1. rewrite I2 in R2.
  do 2 eexists. split; [exact R1|]. split; [exact R2|].
  assert (Himp : forall a : Row,
            (year a =? yr) && above v2 (index a) = true ->
            (year a =? yr) && above v1 (index a) = true).
  { intros a. rewrite !andb_true_iff. intros [Hy Ha]. split; [assumption|].
    apply above_spec in Ha. destruct Ha as (x & Ex & Hlt).
    apply above_spec. exists x. split; [assumption|].
    now apply (Qle_lt_trans v1 v2 x). }
  split; [|split].
  - pose proof (filter_length_incl _ _ df Himp) as H. unfold ahead. lia.
  - intros Hlt.
    assert (H : (List.length (ahead df yr v2) < List.length (ahead df yr v1))%nat).
    { unfold ahead. apply (filter_length_strict _ _ df r2 Himp Hin2).
      - rewrite I2, above_irrefl. apply andb_false_r.
      - apply andb_true_iff. split; [now apply Z.eqb_eq|].
        rewrite I2. apply above_spec. eauto. }
    lia.
  - intros Heq.
    assert (Himp' : forall a : Row,
              (year a =? yr) && above v1 (index a) = true ->
              (year a =? yr) && above v2 (index a) = true).
    { intros a. rewrite !andb_true_iff. intros [Hy Ha]. split; [assumption|].
      apply above_spec in Ha. destruct Ha as (x & Ex & Hlt).
      apply above_spec. exists x. split; [assumption|]. now rewrite <- Heq. }
    pose proof (filter_length_incl _ _ df Himp) as Ha.
    pose proof (filter_length_incl _ _ df Himp') as Hb.
    unfold ahead. lia.
Qed.

Lemma ranks_follow_the_indexes_witness :
  exists k1 k2 : Z,
    App.market_rank scenario 2021 (Some "T1"%string) = App.RankNum k1 /\
    App.market_rank scenario 2021 (Some "T2"%string) = App.RankNum k2 /\
    k2 <= k1 /\
    ((85 < 90)%Q -> k2 < k1) /\
    ((85 == 90)%Q -> k1 = k2).
Proof.
  refine (ranks_follow_the_indexes scenario 2021 (Some "T1"%string) (Some "T2"%string) _ _ 85 90 _ _ _ _ _);
    try reflexivity.
  discriminate.
Defined.

(** ** The tabs: the heat map and the detail table *)

Lemma melt_length {R V : Type} (id : R -> Z) (cols : list (string * (R -> V)))
  (rows : list R) :
  List.length (View.melt id cols rows) = (List.length cols * List.length rows)%nat.
Proof.
  unfold View.melt. induction cols as [|c cols IH]; simpl; [reflexivity|].
  now rewrite length_app, length_map, IH.
Qed.

Lemma melt_nth {R V : Type} (id : R -> Z) (cols : list (string * (R -> V)))
  (rows : list R) (i : nat) (r : R) :
  nth_error rows i = Some r ->
  forall (j : nat) (c : string * (R -> V)),
    nth_error cols j = Some c ->
    nth_error (View.melt id cols rows) (j * List.length rows + i)
    = Some (id r, fst c, snd c r).
Proof.
  intros Hr. unfold View.melt.
  assert (Hi : (i < List.length rows)%nat)
    by (apply nth_error_Some; congruence).
  induction cols as [|c0 cols IH]; intros j c Hc.
  - destruct j; discriminate.
  - destruct j as [|j]; simpl in Hc |- *.
    + injection Hc as <-.
      rewrite nth_error_app1 by now rewrite length_map.
      now rewrite nth_error_map, Hr.
    + rewrite nth_error_app2 by (rewrite length_map; lia).
      rewrite length_map.
      replace (List.length rows + j * List.length rows + i - List.length rows)%nat
        with (j * List.length rows + i)%nat by lia.
      now apply IH.
Qed.

(** X14.  The heat-map data reshapes the five frequency columns without
    loss: it has five entries per row; the entries come column by column,
    in the order of [tech_cols], and within a column row by row, so that
    the entry of row [i] for column [j] is found at place [j * n + i] and
    holds that row's year, that column's header and that row's value. *)
Theorem heatmap_has_every_row_and_technology
  (rows : list View.TechRow) (i j : nat) (r : View.TechRow)
  (c : string * (View.TechRow -> option Q)) :
  nth_error rows i = Some r ->
  nth_error View.tech_cols j = Some c ->
  List.length (View.heatmap_data rows) = (5 * List.length rows)%nat /\
  nth_error (View.heatmap_data rows) (j * List.length rows + i)
  = Some (View.tech_year r, fst c, snd c r).
Proof.
  intros Hr Hc. unfold View.heatmap_data. split.
  - now rewrite melt_length.
  - now apply melt_nth.
Qed.

Lemma heatmap_has_every_row_and_technology_witness :
  let rows :=
    [ View.mkTech 2020 (Some 1%Q) (Some 2%Q) (Some 3%Q) None (Some 5%Q);
      View.mkTech 2021 (Some 6%Q) (Some 7%Q) (Some 8%Q) (Some 9%Q) (Some 10%Q) ] in
  List.length (View.heatmap_data rows) = (5 * List.length rows)%nat /\
  nth_error (View.heatmap_data rows) (2 * List.length rows + 1)
  = Some (2021, "云计算词频数"%string, Some 8%Q).
Proof.
  cbv zeta.
  exact (heatmap_has_every_row_and_technology
           [ View.mkTech 2020 (Some 1%Q) (Some 2%Q) (Some 3%Q) None (Some 5%Q);
             View.mkTech 2021 (Some 6%Q) (Some 7%Q) (Some 8%Q) (Some 9%Q) (Some 10%Q) ]
           1 2
           (View.mkTech 2021 (Some 6%Q) (Some 7%Q) (Some 8%Q) (Some 9%Q) (Some 10%Q))
           ("云计算词频数"%string, View.cloud)
           eq_refl eq_refl).
Defined.

Lemma insert_by_year_desc_perm r l :
  Permutation (r :: l) (View.insert_by_year_desc r l).
Proof.
  induction l as [|x l IH]; simpl; [reflexivity|].
  destruct (year x <=? year r); [reflexivity|].
  rewrite perm_swap. now constructor.
Qed.

Lemma detail_table_perm l : Permutation l (View.detail_table l).
Proof.
  induction l as [|x l IH]; simpl; [constructor|].
  rewrite <- insert_by_year_desc_perm. now constructor.
Qed.

Lemma insert_by_year_desc_sorted r l :
  StronglySorted by_year_desc l ->
  StronglySorted by_year_desc (View.insert_by_year_desc r l).
Proof.
  induction l as [|x l IH]; simpl; intros Hs.
  - repeat constructor.
  - inversion Hs as [|? ? Hs' Hall]; subst.
    destruct (year x <=? year r) eqn:E.
    + apply Z.leb_le in E. constructor; [assumption|].
      constructor; [exact E|].
      eapply Forall_impl; [|exact Hall]. unfold by_year_desc; intros; lia.
    + apply Z.leb_gt in E. constructor; [now apply IH|].
      apply Forall_forall; intros z Hz.
      apply (Permutation_in _ (Permutation_sym (insert_by_year_desc_perm r l))) in Hz.
      destruct Hz as [<- | Hz]; [unfold by_year_desc; lia|].
      rewrite Forall_forall in Hall; now apply Hall.
Qed.

Lemma detail_table_sorted l : StronglySorted by_year_desc (View.detail_table l).
Proof.
  induction l as [|x l IH]; simpl; [constructor|].
  now apply insert_by_year_desc_sorted.
Qed.

(** X15.  The detail table lists the rows of the filtered series, each as
    many times as the series has it, from the latest year to the earliest;
    when the series is not empty its first line has the year of the latest
    record, the year the metrics are computed for. *)
Theorem detail_table_is_latest_first
  (df : list Row) (first_code : option string) (sel : Z * Z) :
  let series := App.filtered_company df first_code sel in
  Permutation series (View.detail_table series) /\
  StronglySorted by_year_desc (View.detail_table series) /\
  (forall latest, iloc_last series = Some latest ->
     exists top, hd_error (View.detail_table series) = Some top /\
                 year top = year latest).
Proof.
  cbv zeta. split; [apply detail_table_perm|].
  split; [apply detail_table_sorted|].
  intros latest Hlast.
  pose proof (detail_table_perm (App.filtered_company df first_code sel)) as Hp.
  pose proof (detail_table_sorted (App.filtered_company df first_code sel)) as Hs.
  assert (Hne : App.filtered_company df first_code sel <> [])
    by (intros E; rewrite E in Hlast; discriminate).
  destruct (iloc_last_nonempty _ Hne) as (init & latest' & E & Hlast').
  assert (latest' = latest) by congruence. subst latest'.
  destruct (series_last df first_code sel init latest E) as (_ & _ & Hmax).
  assert (Hin : In latest (View.detail_table (App.filtered_company df first_code sel))).
  { apply (Permutation_in _ Hp). rewrite E. apply in_or_app; right; now left. }
  destruct (View.detail_table (App.filtered_company df first_code sel))
    as [|top tl] eqn:T; [contradiction|].
  exists top. split; [reflexivity|].
  assert (Htop : In top (App.filtered_company df first_code sel)).
  { apply (Permutation_in _ (Permutation_sym Hp)). now left. }
  rewrite Forall_forall in Hmax. specialize (Hmax top Htop).
  inversion Hs as [|? ? _ Hall]; subst.
  destruct Hin as [-> | Hin]; [reflexivity|].
  rewrite Forall_forall in Hall. specialize (Hall latest Hin).
  unfold by_year_desc in Hall. lia.
Qed.

(** ** The order and the other columns of the Dataset *)

(** X16.  Cleaning the year touches nothing else: when the load succeeds,
    the codes, names, indexes and frequencies of the Dataset are those of
    the rows of the file whose year is a number, in the order of the
    file. *)
Theorem cleaning_keeps_order_and_columns
  (parse_number : string -> number) (rows : list RawRow) (df : list Row) :
  App.clean parse_number rows = Ok df ->
  let kept := filter (App.parsed_year parse_number) rows in
  map code df = map raw_code kept /\
  map name df = map raw_name kept /\
  map index df = map raw_index kept /\
  map freq df = map raw_freq kept.
Proof.
  intros Hdf. cbv zeta.
  pose proof (clean_rows parse_number rows df Hdf) as H. clear Hdf.
  set (kept := filter (App.parsed_year parse_number) rows) in *.
  clearbody kept.
  induction H as [|raw r kept df' (H1 & H2 & H3 & H4 & _) _ IH]; simpl.
  - repeat split.
  - destruct IH as (I1 & I2 & I3 & I4). repeat split; congruence.
Qed.

Lemma cleaning_keeps_order_and_columns_witness :
  let rows := [ mkRaw (Some "000002"%string) (Some "VKA"%string) (CNum 2021)
                      (Some 40%Q) (Some 8%Q);
                mkRaw (Some "000001"%string) (Some "PAB"%string) (CStr "n/a")
                      (Some 50%Q) (Some 12%Q);
                mkRaw None (Some "PAB"%string) (CNum (40401 # 20)) None None;
                mkRaw (Some "000001"%string) None CNaN (Some 51%Q) None ] in
  let kept := filter (App.parsed_year (fun _ => NaN)) rows in
  let df := [ mkRow (Some "000002"%string) (Some "VKA"%string) 2021
                    (Some 40%Q) (Some 8%Q);
              mkRow None (Some "PAB"%string) 2020 None None ] in
  map code df = map raw_code kept /\
  map name df = map raw_name kept /\
  map index df = map raw_index kept /\
  map freq df = map raw_freq kept.
Proof.
  apply (cleaning_keeps_order_and_columns (fun _ => NaN)
           [ mkRaw (Some "000002"%string) (Some "VKA"%string) (CNum 2021)
                   (Some 40%Q) (Some 8%Q);
             mkRaw (Some "000001"%string) (Some "PAB"%string) (CStr "n/a")
                   (Some 50%Q) (Some 12%Q);
             mkRaw None (Some "PAB"%string) (CNum (40401 # 20)) None None;
             mkRaw (Some "000001"%string) None CNaN (Some 51%Q) None ]).
  reflexivity.
Defined.

(** ** The page depends on the query through the resolved code *)

(** X17.  On a Dataset that has rows, a by-name query that finds rows
    gives the same page, element for element and with the same outcome, as
    the by-code query for the code of the first row it found (that code not
    being empty): past the resolution, nothing of the query is used but the
    label of the text input. *)
Theorem page_depends_on_the_resolved_code_only
  (re_other : string -> option (string -> bool)) (text_names : bool)
  (df : list Row) (avg : list AvgRow) (q : string) (sel : Z * Z)
  (first : Row) (rest : list Row) (c : string) :
  df <> [] ->
  q <> EmptyString ->
  code first = Some c ->
  c <> EmptyString ->
  App.matches re_other text_names df App.ByName q = Ok (first :: rest) ->
  App.content re_other text_names df avg (App.mkInputs App.ByName q sel)
  = App.content re_other text_names df avg (App.mkInputs App.ByCode c sel) /\
  forall out r,
    App.render re_other text_names df avg (App.mkInputs App.ByName q sel)
      = (page_head App.ByName df ++ out, r) <->
    App.render re_other text_names df avg (App.mkInputs App.ByCode c sel)
      = (page_head App.ByCode df ++ out, r).
Proof.
  intros Hne Hq Hfc Hc Hm.
  assert (E : App.content re_other text_names df avg (App.mkInputs App.ByName q sel)
              = App.content re_other text_names df avg (App.mkInputs App.ByCode c sel)).
  { rewrite (content_of_found re_other text_names df avg
               (App.mkInputs App.ByName q sel) first rest Hq Hm).
    destruct (matches_filter re_other _ df App.ByName q _ Hm) as [p Hp].
    assert (Hin : In first df).
    { assert (H : In first (filter p df)) by (rewrite <- Hp; now left).
      apply filter_In in H. tauto. }
    destruct (filter (App.code_is c) df) as [|first' rest'] eqn:F.
    - exfalso.
      assert (H : In first (filter (App.code_is c) df)).
      { apply filter_In. split; [assumption | now apply code_is_spec]. }
      rewrite F in H. contradiction.
    - assert (Hc' : code first' = Some c).
      { assert (H : In first' (filter (App.code_is c) df))
          by (rewrite F; now left).
        apply filter_In in H. destruct H as [_ H]. now apply code_is_spec. }
      rewrite (content_of_found re_other text_names df avg
                 (App.mkInputs App.ByCode c sel) first' rest' Hc).
      + cbn [App.selected_years]. now rewrite Hc', Hfc.
      + cbn [App.mode App.query App.matches]. now rewrite F. }
  split; [exact E|].
  intros out r. rewrite !(render_with_rows _ _ _ _ _ Hne), E.
  cbn [App.mode]. split; intros H.
  - apply pair_equal_spec in H. destruct H as [H1 H2].
    apply app_inv_head in H1. now rewrite H1, H2.
  - apply pair_equal_spec in H. destruct H as [H1 H2].
    apply app_inv_head in H1. now rewrite H1, H2.
Qed.

Lemma page_depends_on_the_resolved_code_only_witness :
  App.content (fun _ => None) true renamed (App.market_avg renamed)
    (App.mkInputs App.ByName "Alpha" (2010, 2022))
  = App.content (fun _ => None) true renamed (App.market_avg renamed)
      (App.mkInputs App.ByCode "T1" (2010, 2022)) /\
  forall out r,
    App.render (fun _ => None) true renamed (App.market_avg renamed)
      (App.mkInputs App.ByName "Alpha" (2010, 2022))
      = (page_head App.ByName renamed ++ out, r) <->
    App.render (fun _ => None) true renamed (App.market_avg renamed)
      (App.mkInputs App.ByCode "T1" (2010, 2022))
      = (page_head App.ByCode renamed ++ out, r).
Proof.
  refine (page_depends_on_the_resolved_code_only (fun _ => None) true renamed
            (App.market_avg renamed) "Alpha" (2010, 2022)
            (mkRow (Some "T1"%string) (Some "Alpha Bank"%string) 2021 (Some 70%Q) (Some 9%Q))
            [ mkRow (Some "T2"%string) (Some "Alpha Tech"%string) 2020 (Some 55%Q) (Some 7%Q);
              mkRow (Some "T1"%string) (Some "Alpha Bank"%string) 2019 (Some 60%Q) (Some 5%Q) ]
            "T1" _ _ _ _ _);
    try reflexivity; discriminate.
Defined.
